(** * MSAL.js: browser cache manager and authority

    A shallow embedding of

    - [BrowserCacheManager] (msal-browser, [src/cache/BrowserCacheManager.ts]),
      the cache-storage class over window storage and cookies, and
    - [Authority] (msal-common, [src/authority/Authority.ts]), the authority
      object with trust validation and endpoint discovery,

    together with the properties of the specification that concern them.

    Conventions.  JavaScript strings are [string]; [null]/[undefined] results
    are [None]; the window storage and the cookie jar are finite maps from
    names to texts; a method that can throw returns in an error-aware type
    ([option] for pure methods, the monad [M] for methods that also mutate
    the cache).  What the classes import from outside the embedded files
    (the JSON functions of the platform, the state codec, the entity classes
    of msal-common, the network) is collected in the records [Env] and
    [AuthorityEnv], so every theorem holds for all implementations of them. *)

From stdpp Require Import gmap strings list fin_maps pretty.
From Stdlib Require Import ZArith Ascii.

Set Default Proof Using "Type".
Open Scope Z_scope.

(** ** JavaScript values and string primitives *)

Module JS.

(** Values produced by [JSON.parse]. *)
#[warnings="-register-all"]
Inductive jsval : Type :=
  | JNull
  | JBool (b : bool)
  | JNum (n : Z)
  | JStr (s : string)
  | JArr (l : list jsval)
  | JObj (o : gmap string jsval).

(** An object seen through its own enumerable properties. *)
Abbreviation jsobj := (gmap string jsval).

(** [!!v] *)
Definition truthy (v : jsval) : bool :=
  match v with
  | JNull => false
  | JBool b => b
  | JNum n => negb (n =? 0)
  | JStr s => negb (bool_decide (s = EmptyString))
  | JArr _ | JObj _ => true
  end.

(** [typeof v === "object"] *)
Definition typeof_object (v : jsval) : bool :=
  match v with
  | JNull | JArr _ | JObj _ => true
  | _ => false
  end.

(** The property names and values a [for (p in v)] loop visits. *)
Definition ownProps (v : jsval) : jsobj :=
  match v with
  | JObj o => o
  | JArr l => list_to_map (imap (λ i x, (pretty i, x)) l)
  | JStr s =>
      list_to_map
        (imap (λ i c, (pretty i, JStr (String c EmptyString))) (String.list_ascii_of_string s))
  | _ => ∅
  end.

(** [o.hasOwnProperty(p)] *)
Definition hasOwnProperty (o : jsobj) (p : string) : bool :=
  bool_decide (is_Some (o !! p)).

(** [s.indexOf(sub)]: the position of the first occurrence, or [-1]. *)
Fixpoint indexOf (s sub : string) : Z :=
  if String.prefix sub s then 0
  else match s with
       | EmptyString => -1
       | String _ s' =>
           let r := indexOf s' sub in
           if r =? -1 then -1 else r + 1
       end.

(** [s.indexOf(sub) !== -1] *)
Definition contains (s sub : string) : bool := negb (indexOf s sub =? -1).

(** [s.replace(pat, by)] for a string pattern: the first occurrence only. *)
Fixpoint replaceFirst (pat by_ s : string) : string :=
  if String.prefix pat s
  then by_ +:+ String.substring (String.length pat)
                                (String.length s - String.length pat) s
  else match s with
       | EmptyString => EmptyString
       | String c s' => String c (replaceFirst pat by_ s')
       end.

(** The four characters JSON allows as white space. *)
Definition json_ws (c : ascii) : bool :=
  bool_decide (c = " "%char) || bool_decide (c = "009"%char)
  || bool_decide (c = "010"%char) || bool_decide (c = "013"%char).

(** Whether the first character after JSON white space opens an object or
    an array. *)
Fixpoint json_object_start (s : string) : bool :=
  match s with
  | EmptyString => false
  | String c s' =>
      if json_ws c then json_object_start s'
      else bool_decide (c = "{"%char) || bool_decide (c = "["%char)
  end.

End JS.
Import JS.

(** ** Constants *)

Module Constants.
(** [Constants.CACHE_PREFIX] of msal-common: the "msal" of
    "Prepend msal.<client-id> to each key" in [generateCacheKey]. *)
Definition CACHE_PREFIX : string := "msal".
End Constants.

(** [TemporaryCacheKeys] of [BrowserConstants.ts]. *)
Module TemporaryCacheKeys.
Definition AUTHORITY : string := "authority".
Definition ACQUIRE_TOKEN_ACCOUNT : string := "acquireToken.account".
Definition SESSION_STATE : string := "session.state".
Definition REQUEST_STATE : string := "request.state".
Definition NONCE_IDTOKEN : string := "nonce.id_token".
Definition ORIGIN_URI : string := "request.origin".
Definition RENEW_STATUS : string := "token.renew.status".
Definition URL_HASH : string := "urlHash".
Definition REQUEST_PARAMS : string := "request.params".
Definition SCOPES : string := "scopes".
Definition INTERACTION_STATUS_KEY : string := "interaction.status".
End TemporaryCacheKeys.

(** [StringUtils] of msal-common, as [BrowserCacheManager] uses it. *)
Module StringUtils.
(** [isEmpty(str)]: undefined, null or of length zero. *)
Definition isEmpty (str : option string) : bool :=
  match str with
  | None => true
  | Some s => bool_decide (s = EmptyString)
  end.

(** [startsWith(str, search)]: [str.indexOf(search) === 0]. *)
Definition startsWith (str search : string) : bool := indexOf str search =? 0.
End StringUtils.

(** ** Cache state and environment *)

(** The two stores a [BrowserCacheManager] writes to: the window storage
    behind [IWindowStorage] (local, session or in-memory storage: a map from
    keys to texts) and the cookies of the document.  The cookies are kept as
    the browser keeps them, one value per cookie name; the text form of
    [document.cookie] and its URI encoding are the browser's and are not
    part of the state. *)
Record CacheState : Type := mkCacheState {
  browserStorage : gmap string string;
  cookies : gmap string string
}.

Definition emptyCache : CacheState := mkCacheState ∅ ∅.

(** The seven persisted entity kinds. *)
Inductive EntityKind : Type :=
  | Account | IdToken | AccessToken | RefreshToken
  | AppMetadata | ServerTelemetry | Throttling.

(** What [BrowserCacheManager] is constructed with and what it imports.

    - [clientId], [storeAuthStateInCookie]: constructor arguments
      ([cacheConfig.storeAuthStateInCookie]).
    - [JSON_parse], [JSON_stringify]: the platform's [JSON.parse]
      ([None] when it throws) and [JSON.stringify].
    - [ADAL_ID_TOKEN]: [PersistentCacheKeys.ADAL_ID_TOKEN] of msal-common.
    - [parseRequestState s]: the [libraryState.id] of
      [ProtocolUtils.parseRequestState(cryptoImpl, s)], [None] when that
      call throws.
    - [generateAccountKey], [generateCredentialKey],
      [generateAppMetadataKey]: the key methods of the entity classes of
      msal-common; each reads the entity it is called on and nothing else.
    - [requiredFields], [keyShape]: see [hasRequiredFields] below.
    - [removeAllAccounts], [removeAppMetadata]: the removal helpers
      inherited from [CacheManager]. *)
Record Env : Type := mkEnv {
  clientId : string;
  storeAuthStateInCookie : bool;
  JSON_parse : string → option jsval;
  JSON_stringify : jsval → string;
  ADAL_ID_TOKEN : string;
  parseRequestState : string → option string;
  generateAccountKey : jsobj → string;
  generateCredentialKey : jsobj → string;
  generateAppMetadataKey : jsobj → string;
  requiredFields : EntityKind → list string;
  keyShape : EntityKind → string → bool;
  removeAllAccounts : CacheState → CacheState;
  removeAppMetadata : CacheState → CacheState
}.

(** The one fact about [JSON.parse] the development relies on: a text that
    parses to an object or an array starts, after white space, with an
    opening brace or bracket. *)
Definition JSON_parse_object_start (E : Env) : Prop :=
  ∀ s v, JSON_parse E s = Some v → truthy v = true → typeof_object v = true →
         json_object_start s = true.

(** ** The cache monad

    Methods that may throw after having written to the cache: the state is
    threaded, and [None] is an exception (the state is the one reached when
    it was thrown). *)

Definition M (A : Type) : Type := CacheState → option A * CacheState.

#[global] Instance M_ret : MRet M := λ A a st, (Some a, st).
#[global] Instance M_bind : MBind M := λ A B f m st,
  match m st with
  | (Some a, st') => f a st'
  | (None, st') => (None, st')
  end.

Definition liftO {A} (o : option A) : M A := λ st, (o, st).
Definition gets {A} (f : CacheState → A) : M A := λ st, (Some (f st), st).
Definition modify (f : CacheState → CacheState) : M unit := λ st, (Some (), f st).

(** ** BrowserCacheManager *)

Module BrowserCacheManager.
Import Constants StringUtils.

Section Methods.
Context (E : Env).

(** [validateAndParseJson]: the parsed value when it is a (non-null) object,
    [null] otherwise, also when [JSON.parse] throws. *)
Definition validateAndParseJson (jsonValue : string) : option jsval :=
  match JSON_parse E jsonValue with
  | Some parsedJson =>
      if truthy parsedJson && typeof_object parsedJson
      then Some parsedJson else None
  | None => None
  end.

Definition getItem (st : CacheState) (key : string) : option string :=
  browserStorage st !! key.

Definition setItem (key value : string) (st : CacheState) : CacheState :=
  mkCacheState (<[key := value]> (browserStorage st)) (cookies st).

(** [CacheManager.toObject(obj, json)]: copies every property of [json]
    onto [obj]; a [null] json has none. *)
Definition toObject (obj : jsobj) (json : option jsval) : jsobj :=
  match json with
  | Some v => ownProps v ∪ obj
  | None => obj
  end.

(** Modelled from the spec: "apply a per-kind validation predicate that
    checks the presence of kind-specific required fields".  The predicates
    are static methods of the entity classes of msal-common
    ([AccountEntity.isAccountEntity] and its six siblings), which the
    embedded sources only call.  [requiredFields E k] are the property names
    the predicate of kind [k] asks for; the predicates of the three kinds
    that are also handed the storage key test it with [keyShape E k]. *)
Definition hasRequiredFields (k : EntityKind) (o : jsobj) : bool :=
  forallb (hasOwnProperty o) (requiredFields E k).

Definition isAccountEntity (o : jsobj) : bool := hasRequiredFields Account o.
Definition isIdTokenEntity (o : jsobj) : bool := hasRequiredFields IdToken o.
Definition isAccessTokenEntity (o : jsobj) : bool :=
  hasRequiredFields AccessToken o.
Definition isRefreshTokenEntity (o : jsobj) : bool :=
  hasRequiredFields RefreshToken o.
Definition isAppMetadataEntity (key : string) (o : jsobj) : bool :=
  keyShape E AppMetadata key && hasRequiredFields AppMetadata o.
Definition isServerTelemetryEntity (key : string) (o : jsobj) : bool :=
  keyShape E ServerTelemetry key && hasRequiredFields ServerTelemetry o.
Definition isThrottlingEntity (key : string) (o : jsobj) : bool :=
  keyShape E Throttling key && hasRequiredFields Throttling o.

(** A freshly constructed entity ([new AccountEntity()] and the like) has no
    own property. *)
Definition newEntity : jsobj := ∅.

Definition getAccount (st : CacheState) (accountKey : string) : option jsobj :=
  let account := getItem st accountKey in
  if isEmpty account then None
  else
    let parsedAccount := validateAndParseJson (default EmptyString account) in
    let accountEntity := toObject newEntity parsedAccount in
    if isAccountEntity accountEntity then Some accountEntity else None.

Definition setAccount (account : jsobj) (st : CacheState) : CacheState :=
  let key := generateAccountKey E account in
  setItem key (JSON_stringify E (JObj account)) st.

Definition getIdTokenCredential (st : CacheState) (idTokenKey : string)
  : option jsobj :=
  let value := getItem st idTokenKey in
  if isEmpty value then None
  else
    let parsedIdToken := validateAndParseJson (default EmptyString value) in
    let idToken := toObject newEntity parsedIdToken in
    if isIdTokenEntity idToken then Some idToken else None.

Definition setIdTokenCredential (idToken : jsobj) (st : CacheState)
  : CacheState :=
  let idTokenKey := generateCredentialKey E idToken in
  setItem idTokenKey (JSON_stringify E (JObj idToken)) st.

Definition getAccessTokenCredential (st : CacheState) (accessTokenKey : string)
  : option jsobj :=
  let value := getItem st accessTokenKey in
  if isEmpty value then None
  else
    let parsedAccessToken := validateAndParseJson (default EmptyString value) in
    let accessToken := toObject newEntity parsedAccessToken in
    if isAccessTokenEntity accessToken then Some accessToken else None.

Definition setAccessTokenCredential (accessToken : jsobj) (st : CacheState)
  : CacheState :=
  let accessTokenKey := generateCredentialKey E accessToken in
  setItem accessTokenKey (JSON_stringify E (JObj accessToken)) st.

Definition getRefreshTokenCredential (st : CacheState)
  (refreshTokenKey : string) : option jsobj :=
  let value := getItem st refreshTokenKey in
  if isEmpty value then None
  else
    let parsedRefreshToken := validateAndParseJson (default EmptyString value) in
    let refreshToken := toObject newEntity parsedRefreshToken in
    if isRefreshTokenEntity refreshToken then Some refreshToken else None.

Definition setRefreshTokenCredential (refreshToken : jsobj) (st : CacheState)
  : CacheState :=
  let refreshTokenKey := generateCredentialKey E refreshToken in
  setItem refreshTokenKey (JSON_stringify E (JObj refreshToken)) st.

Definition getAppMetadata (st : CacheState) (appMetadataKey : string)
  : option jsobj :=
  let value := getItem st appMetadataKey in
  if isEmpty value then None
  else
    let parsedMetadata := validateAndParseJson (default EmptyString value) in
    let appMetadata := toObject newEntity parsedMetadata in
    if isAppMetadataEntity appMetadataKey appMetadata
    then Some appMetadata else None.

Definition setAppMetadata (appMetadata : jsobj) (st : CacheState)
  : CacheState :=
  let appMetadataKey := generateAppMetadataKey E appMetadata in
  setItem appMetadataKey (JSON_stringify E (JObj appMetadata)) st.

Definition getServerTelemetry (st : CacheState) (serverTelemetryKey : string)
  : option jsobj :=
  let value := getItem st serverTelemetryKey in
  if isEmpty value then None
  else
    let parsedMetadata := validateAndParseJson (default EmptyString value) in
    let serverTelemetryEntity := toObject newEntity parsedMetadata in
    if isServerTelemetryEntity serverTelemetryKey serverTelemetryEntity
    then Some serverTelemetryEntity else None.

Definition setServerTelemetry (serverTelemetryKey : string)
  (serverTelemetry : jsobj) (st : CacheState) : CacheState :=
  setItem serverTelemetryKey (JSON_stringify E (JObj serverTelemetry)) st.

Definition getThrottlingCache (st : CacheState) (throttlingCacheKey : string)
  : option jsobj :=
  let value := getItem st throttlingCacheKey in
  if isEmpty value then None
  else
    let parsedThrottlingCache :=
      validateAndParseJson (default EmptyString value) in
    let throttlingCache := toObject newEntity parsedThrottlingCache in
    if isThrottlingEntity throttlingCacheKey throttlingCache
    then Some throttlingCache else None.

Definition setThrottlingCache (throttlingCacheKey : string)
  (throttlingCache : jsobj) (st : CacheState) : CacheState :=
  setItem throttlingCacheKey (JSON_stringify E (JObj throttlingCache)) st.

(** *** Cookies *)

(** [setItemCookie(cookieName, cookieValue, expires?)] assigns
    [name=value;path=/;] to [document.cookie], with an [expires] attribute
    [expires] days from now when [expires] is given and not zero.  The
    browser then stores the value under the name, or drops the cookie when
    the expiry date is in the past, that is when [expires] is negative. *)
Definition setItemCookie (cookieName cookieValue : string)
  (expires : option Z) (st : CacheState) : CacheState :=
  match expires with
  | Some days =>
      if (days <? 0)
      then mkCacheState (browserStorage st) (delete cookieName (cookies st))
      else mkCacheState (browserStorage st)
                        (<[cookieName := cookieValue]> (cookies st))
  | None =>
      mkCacheState (browserStorage st)
                   (<[cookieName := cookieValue]> (cookies st))
  end.

(** [getItemCookie(cookieName)]: the value of the cookie of that name in
    [document.cookie], the empty string when there is none. *)
Definition getItemCookie (st : CacheState) (cookieName : string) : string :=
  default EmptyString (cookies st !! cookieName).

Definition clearItemCookie (cookieName : string) (st : CacheState)
  : CacheState :=
  setItemCookie cookieName EmptyString (Some (-1)) st.

(** *** Keys *)

(** [generateCacheKey]: prepends [msal.<client-id>.] unless the key already
    starts with the prefix (or the ADAL id token key); a key that is a JSON
    object is returned through [JSON.stringify]. *)
Definition generateCacheKey (key : string) : string :=
  match validateAndParseJson key with
  | None =>
      if startsWith key CACHE_PREFIX || startsWith key (ADAL_ID_TOKEN E)
      then key
      else CACHE_PREFIX +:+ "." +:+ clientId E +:+ "." +:+ key
  | Some _ => JSON_stringify E (JStr key)
  end.

Definition generateAuthorityKey (stateString : string) : option string :=
  stateId ← parseRequestState E stateString;
  Some (generateCacheKey (TemporaryCacheKeys.AUTHORITY +:+ "." +:+ stateId)).

Definition generateNonceKey (stateString : string) : option string :=
  stateId ← parseRequestState E stateString;
  Some (generateCacheKey (TemporaryCacheKeys.NONCE_IDTOKEN +:+ "." +:+ stateId)).

Definition generateStateKey (stateString : string) : option string :=
  stateId ← parseRequestState E stateString;
  Some (generateCacheKey (TemporaryCacheKeys.REQUEST_STATE +:+ "." +:+ stateId)).

(** *** Temporary cache *)

(** [getTemporaryCache(cacheKey, generateKey?)] *)
Definition getTemporaryCache (st : CacheState) (cacheKey : string)
  (generateKey : bool) : option string :=
  let key := if generateKey then generateCacheKey cacheKey else cacheKey in
  let itemCookie := getItemCookie st key in
  if storeAuthStateInCookie E && negb (bool_decide (itemCookie = EmptyString))
  then Some itemCookie
  else
    let value := getItem st key in
    if isEmpty value then None else value.

(** [setTemporaryCache(cacheKey, value, generateKey?)] *)
Definition setTemporaryCache (cacheKey value : string) (generateKey : bool)
  (st : CacheState) : CacheState :=
  let key := if generateKey then generateCacheKey cacheKey else cacheKey in
  let st := setItem key value st in
  if storeAuthStateInCookie E then setItemCookie key value None st else st.

(** [removeItem(key)] *)
Definition removeItem (key : string) (st : CacheState) : CacheState :=
  let st := mkCacheState (delete key (browserStorage st)) (cookies st) in
  if storeAuthStateInCookie E then clearItemCookie key st else st.

Definition containsKey (st : CacheState) (key : string) : bool :=
  bool_decide (is_Some (browserStorage st !! key)).

Definition getKeys (st : CacheState) : list string :=
  (map_to_list (browserStorage st)).*1.

(** [clear()]: the callback of [forEach] runs over the keys read before the
    loop, on the cache as the earlier removals left it. *)
Definition clear (st : CacheState) : CacheState :=
  let st := removeAllAccounts E st in
  let st := removeAppMetadata E st in
  foldl (λ st cacheKey,
           if containsKey st cacheKey
              && (contains cacheKey CACHE_PREFIX
                  || contains cacheKey (clientId E))
           then removeItem cacheKey st else st)
        st (getKeys st).

(** [setAuthorityCache(authority, state)] *)
Definition setAuthorityCache (authority state : string) : M unit :=
  authorityCacheKey ← liftO (generateAuthorityKey state);
  modify (setItem authorityCacheKey authority).

(** [getCachedAuthority(cachedState)] *)
Definition getCachedAuthority (cachedState : string) : M (option string) :=
  stateCacheKey ← liftO (generateStateKey cachedState);
  state ← gets (λ st, getTemporaryCache st stateCacheKey false);
  match state with
  | None => mret None
  | Some state =>
      authorityCacheKey ← liftO (generateAuthorityKey state);
      gets (λ st, getTemporaryCache st authorityCacheKey false)
  end.

(** [updateCacheEntries(state, nonce, authorityInstance)] *)
Definition updateCacheEntries (state nonce authorityInstance : string)
  : M unit :=
  stateCacheKey ← liftO (generateStateKey state);
  modify (setTemporaryCache stateCacheKey state false);;
  nonceCacheKey ← liftO (generateNonceKey state);
  modify (setTemporaryCache nonceCacheKey nonce false);;
  setAuthorityCache authorityInstance state.

(** [resetRequestCache(state)] *)
Definition resetRequestCache (state : string) : M unit :=
  keys ← gets getKeys;
  modify (λ st,
    foldl (λ st key,
             if negb (isEmpty (Some state)) && contains key state
             then removeItem key st else st)
          st keys);;
  (if negb (bool_decide (state = EmptyString)) then
     k ← liftO (generateStateKey state); modify (removeItem k);;
     k ← liftO (generateNonceKey state); modify (removeItem k);;
     k ← liftO (generateAuthorityKey state); modify (removeItem k)
   else mret ());;
  modify (removeItem (generateCacheKey TemporaryCacheKeys.REQUEST_PARAMS));;
  modify (removeItem (generateCacheKey TemporaryCacheKeys.ORIGIN_URI));;
  modify (removeItem (generateCacheKey TemporaryCacheKeys.URL_HASH));;
  modify (removeItem
            (generateCacheKey TemporaryCacheKeys.INTERACTION_STATUS_KEY)).

(** [cleanRequestByState(stateString)] *)
Definition cleanRequestByState (stateString : string) : M unit :=
  if negb (bool_decide (stateString = EmptyString)) then
    stateKey ← liftO (generateStateKey stateString);
    cachedState ← gets (λ st, getItem st stateKey);
    resetRequestCache
      (match cachedState with
       | Some s => s
       | None => EmptyString
       end)
  else mret ().

End Methods.
End BrowserCacheManager.

(** ** Authority *)

Module Authority.

(** The fields of [IUri] that [Authority] reads. *)
Record IUri : Type := mkIUri {
  HostNameAndPort : string;
  PathSegments : list string
}.

(** The fields of [OpenIdConfigResponse] that [Authority] reads. *)
Record OpenIdConfigResponse : Type := mkOpenIdConfigResponse {
  authorization_endpoint : string;
  token_endpoint : string;
  end_session_endpoint : string;
  issuer : string
}.

Record CloudDiscoveryMetadata : Type := mkCloudDiscoveryMetadata {
  preferred_network : string;
  preferred_cache : string;
  aliases : list string
}.

Inductive AuthorityType : Type := Default | Adfs.
Inductive ProtocolMode : Type := AAD | OIDC.

Inductive AuthError : Type :=
  | EndpointDiscoveryIncompleteError
  | UntrustedAuthorityError
  | UrlError
  | NetworkError
  | TypeError.

Inductive result (A : Type) : Type :=
  | Ok (a : A)
  | Throw (e : AuthError).
Arguments Ok {A} a.
Arguments Throw {A} e.

(** An [Authority] object.  [canonicalAuthority] is the url string of
    [_canonicalAuthority]; [_canonicalAuthorityUrlComponents] caches the
    components of that url and is reset whenever the url is assigned, so it
    is not a field of its own. *)
Record Authority : Type := mkAuthority {
  canonicalAuthority : string;
  tenantDiscoveryResponse : option OpenIdConfigResponse;
  authorityProtocolMode : ProtocolMode
}.

(** What a call of an [Authority] method can read and write: the object
    itself, the process-wide registry of [TrustedAuthority], and the GET
    requests [discoverEndpoints] has sent through the network interface. *)
Record World : Type := mkWorld {
  this : Authority;
  TrustedHostList : gmap string CloudDiscoveryMetadata;
  openIdRequests : list string
}.

(** What [Authority] imports.

    - [UrlString_new url]: the url string of [new UrlString(url)] after
      [validateAsUri()], [None] when either throws.
    - [getUrlComponents]: [UrlString.getUrlComponents].
    - [toLowerCase]: [String.prototype.toLowerCase].
    - [ADFS]: [Constants.ADFS].
    - [sendGetRequestAsync url]: what the network interface answers to a GET
      of the OpenID configuration at [url]: [None] when the promise is
      rejected, otherwise the [body] of the response, which may be missing.
    - [setTrustedAuthoritiesFromNetwork]: the registry after
      [TrustedAuthority.setTrustedAuthoritiesFromNetwork(authority, network)]
      has run on a given registry. *)
Record AuthorityEnv : Type := mkAuthorityEnv {
  UrlString_new : string → option string;
  getUrlComponents : string → IUri;
  toLowerCase : string → string;
  ADFS : string;
  sendGetRequestAsync : string → option (option OpenIdConfigResponse);
  setTrustedAuthoritiesFromNetwork :
    string → gmap string CloudDiscoveryMetadata →
    gmap string CloudDiscoveryMetadata
}.

(** The monad of the methods that may throw and that write to the world. *)
Definition AM (A : Type) : Type := World → result A * World.

#[global] Instance AM_ret : MRet AM := λ A a w, (Ok a, w).
#[global] Instance AM_bind : MBind AM := λ A B f m w,
  match m w with
  | (Ok a, w') => f a w'
  | (Throw e, w') => (Throw e, w')
  end.

Definition throw {A} (e : AuthError) : AM A := λ w, (Throw e, w).
Definition getW {A} (f : World → A) : AM A := λ w, (Ok (f w), w).
Definition modifyW (f : World → World) : AM unit := λ w, (Ok (), f w).

(** The global replacement of [/{tenant}|{tenantid}/g] by [by_]: [skip]
    counts the characters of a match still to be dropped.  The replacement
    text is inserted as it is; the [$]-patterns JavaScript expands in a
    replacement string do not occur in a path segment of a canonical url. *)
Fixpoint replacePlaceholders (by_ : string) (skip : nat) (s : string)
  : string :=
  match s with
  | EmptyString => EmptyString
  | String c s' =>
      match skip with
      | S n => replacePlaceholders by_ n s'
      | O =>
          if String.prefix "{tenant}" s
          then by_ +:+ replacePlaceholders by_ 7 s'
          else if String.prefix "{tenantid}" s
          then by_ +:+ replacePlaceholders by_ 9 s'
          else String c (replacePlaceholders by_ O s')
      end
  end.

Section Methods.
Context (N : AuthorityEnv).

(** *** TrustedAuthority *)

(** Modelled from the spec: "TrustRegistry: holds the set of
    identity-provider hosts the host application trusts, each mapped to
    cloud metadata".  The static class [TrustedAuthority] of msal-common is
    only called by the embedded sources; the registry is the map
    [TrustedHostList] of the world, the trusted hosts are its keys. *)
Definition getTrustedHostList (w : World) : list string :=
  (map_to_list (TrustedHostList w)).*1.

Definition IsInTrustedHostList (w : World) (host : string) : bool :=
  bool_decide (is_Some (TrustedHostList w !! host)).

Definition getCloudDiscoveryMetadata (w : World) (host : string)
  : option CloudDiscoveryMetadata :=
  TrustedHostList w !! host.

(** *** Getters *)

Definition canonicalAuthorityUrlComponents (a : Authority) : IUri :=
  getUrlComponents N (canonicalAuthority a).

Definition authorityType (a : Authority) : AuthorityType :=
  match PathSegments (canonicalAuthorityUrlComponents a) with
  | seg0 :: _ =>
      if bool_decide (toLowerCase N seg0 = ADFS N) then Adfs else Default
  | [] => Default
  end.

Definition protocolMode (a : Authority) : ProtocolMode :=
  authorityProtocolMode a.

(** [PathSegments[0]], [undefined] when there is no segment. *)
Definition tenant (a : Authority) : option string :=
  head (PathSegments (canonicalAuthorityUrlComponents a)).

Definition discoveryComplete (a : Authority) : bool :=
  bool_decide (is_Some (tenantDiscoveryResponse a)).

(** [replaceTenant(urlString)]; an [undefined] replacement is inserted as the
    text "undefined". *)
Definition replaceTenant (a : Authority) (urlString : string) : string :=
  replacePlaceholders (default "undefined" (tenant a)) O urlString.

Definition authorizationEndpoint (a : Authority) : result string :=
  match tenantDiscoveryResponse a with
  | Some r => Ok (replaceTenant a (authorization_endpoint r))
  | None => Throw EndpointDiscoveryIncompleteError
  end.

Definition tokenEndpoint (a : Authority) : result string :=
  match tenantDiscoveryResponse a with
  | Some r => Ok (replaceTenant a (token_endpoint r))
  | None => Throw EndpointDiscoveryIncompleteError
  end.

Definition deviceCodeEndpoint (a : Authority) : result string :=
  match tenantDiscoveryResponse a with
  | Some r => Ok (replaceFirst "/token" "/devicecode" (token_endpoint r))
  | None => Throw EndpointDiscoveryIncompleteError
  end.

Definition endSessionEndpoint (a : Authority) : result string :=
  match tenantDiscoveryResponse a with
  | Some r => Ok (replaceTenant a (end_session_endpoint r))
  | None => Throw EndpointDiscoveryIncompleteError
  end.

Definition selfSignedJwtAudience (a : Authority) : result string :=
  match tenantDiscoveryResponse a with
  | Some r => Ok (replaceTenant a (issuer r))
  | None => Throw EndpointDiscoveryIncompleteError
  end.

Definition defaultOpenIdConfigurationEndpoint (a : Authority) : string :=
  match authorityType a, protocolMode a with
  | Adfs, _ | _, OIDC =>
      canonicalAuthority a +:+ ".well-known/openid-configuration"
  | _, _ => canonicalAuthority a +:+ "v2.0/.well-known/openid-configuration"
  end.

(** *** Methods *)

(** The setter of [canonicalAuthority]. *)
Definition set_canonicalAuthority (url : string) : AM unit :=
  match UrlString_new N url with
  | Some urlString =>
      modifyW (λ w,
        mkWorld (mkAuthority urlString (tenantDiscoveryResponse (this w))
                             (authorityProtocolMode (this w)))
                (TrustedHostList w) (openIdRequests w))
  | None => throw UrlError
  end.

(** [discoverEndpoints(openIdConfigurationEndpoint)]: one GET request. *)
Definition discoverEndpoints (openIdConfigurationEndpoint : string)
  : AM (option OpenIdConfigResponse) :=
  modifyW (λ w, mkWorld (this w) (TrustedHostList w)
                        (openIdRequests w ++ [openIdConfigurationEndpoint]));;
  match sendGetRequestAsync N openIdConfigurationEndpoint with
  | Some body => mret body
  | None => throw NetworkError
  end.

(** [validateAndSetPreferredNetwork()] *)
Definition validateAndSetPreferredNetwork : AM unit :=
  host ← getW (λ w, HostNameAndPort (canonicalAuthorityUrlComponents (this w)));
  trusted ← getW getTrustedHostList;
  (if bool_decide (length trusted = 0%nat)
   then modifyW (λ w,
          mkWorld (this w)
                  (setTrustedAuthoritiesFromNetwork N
                     (canonicalAuthority (this w)) (TrustedHostList w))
                  (openIdRequests w))
   else mret ());;
  isTrusted ← getW (λ w, IsInTrustedHostList w host);
  if negb isTrusted then throw UntrustedAuthorityError
  else
    metadata ← getW (λ w, getCloudDiscoveryMetadata w host);
    match metadata with
    | Some metadata =>
        let preferredNetwork := preferred_network metadata in
        if negb (bool_decide (host = preferredNetwork))
        then
          url ← getW (λ w, canonicalAuthority (this w));
          set_canonicalAuthority (replaceFirst host preferredNetwork url)
        else mret ()
    | None => throw TypeError
    end.

(** [resolveEndpointsAsync()] *)
Definition resolveEndpointsAsync : AM unit :=
  validateAndSetPreferredNetwork;;
  openIdConfigEndpoint ← getW (λ w, defaultOpenIdConfigurationEndpoint (this w));
  response ← discoverEndpoints openIdConfigEndpoint;
  modifyW (λ w,
    mkWorld (mkAuthority (canonicalAuthority (this w)) response
                         (authorityProtocolMode (this w)))
            (TrustedHostList w) (openIdRequests w)).

End Methods.
End Authority.

(** ** The entity store of the specification

    The contract [read(kind, key)] / [write(kind, entity)] of the
    specification, dispatched to the method of each kind.  [callerKey] is
    the key argument that [setServerTelemetry] and [setThrottlingCache]
    take; the other five methods have no such argument. *)

Module CacheEntityStore.
Import BrowserCacheManager.

Section Store.
Context (E : Env).

Definition read (k : EntityKind) (st : CacheState) (key : string)
  : option jsobj :=
  match k with
  | Account => getAccount E st key
  | IdToken => getIdTokenCredential E st key
  | AccessToken => getAccessTokenCredential E st key
  | RefreshToken => getRefreshTokenCredential E st key
  | AppMetadata => getAppMetadata E st key
  | ServerTelemetry => getServerTelemetry E st key
  | Throttling => getThrottlingCache E st key
  end.

Definition write (k : EntityKind) (callerKey : string) (e : jsobj)
  (st : CacheState) : CacheState :=
  match k with
  | Account => setAccount E e st
  | IdToken => setIdTokenCredential E e st
  | AccessToken => setAccessTokenCredential E e st
  | RefreshToken => setRefreshTokenCredential E e st
  | AppMetadata => setAppMetadata E e st
  | ServerTelemetry => setServerTelemetry E callerKey e st
  | Throttling => setThrottlingCache E callerKey e st
  end.

(** The kinds whose set method takes the storage key from its caller. *)
Definition callerKeyed (k : EntityKind) : bool :=
  match k with
  | ServerTelemetry | Throttling => true
  | _ => false
  end.

(** The key under which [write] stores. *)
Definition storageKey (k : EntityKind) (callerKey : string) (e : jsobj)
  : string :=
  match k with
  | Account => generateAccountKey E e
  | IdToken | AccessToken | RefreshToken => generateCredentialKey E e
  | AppMetadata => generateAppMetadataKey E e
  | ServerTelemetry | Throttling => callerKey
  end.

(** The validation predicate [read] applies to an entity found under
    [key]. *)
Definition validate (k : EntityKind) (key : string) (e : jsobj) : bool :=
  match k with
  | Account => isAccountEntity E e
  | IdToken => isIdTokenEntity E e
  | AccessToken => isAccessTokenEntity E e
  | RefreshToken => isRefreshTokenEntity E e
  | AppMetadata => isAppMetadataEntity E key e
  | ServerTelemetry => isServerTelemetryEntity E key e
  | Throttling => isThrottlingEntity E key e
  end.

(** A sequence of writes, first to last. *)
Definition writeAll (ws : list (EntityKind * string * jsobj))
  (st : CacheState) : CacheState :=
  foldl (λ st w, write w.1.1 w.1.2 w.2 st) st ws.

(** The names of the three temporary items of a request. *)
Definition tempNames : list string :=
  [TemporaryCacheKeys.REQUEST_STATE; TemporaryCacheKeys.NONCE_IDTOKEN;
   TemporaryCacheKeys.AUTHORITY].

(** The three temporary keys of a request state. *)
Definition requestKeys (state : string) : option (list string) :=
  k1 ← generateStateKey E state;
  k2 ← generateNonceKey E state;
  k3 ← generateAuthorityKey E state;
  Some [k1; k2; k3].

(** A sequence of [updateCacheEntries] calls (state, nonce, authority),
    first to last. *)
Fixpoint beginRequests (reqs : list (string * string * string)) : M unit :=
  match reqs with
  | [] => mret ()
  | r :: reqs' =>
      updateCacheEntries E r.1.1 r.1.2 r.2;; beginRequests reqs'
  end.

(** The four temporary keys that do not depend on the request. *)
Definition fixedKeys : list string :=
  [generateCacheKey E TemporaryCacheKeys.REQUEST_PARAMS;
   generateCacheKey E TemporaryCacheKeys.ORIGIN_URI;
   generateCacheKey E TemporaryCacheKeys.URL_HASH;
   generateCacheKey E TemporaryCacheKeys.INTERACTION_STATUS_KEY].

End Store.
End CacheEntityStore.

(** ** A sample environment

    A concrete environment on which the model runs: a fragment of the JSON
    functions large enough for a handful of sample entities, a table of
    encoded request states, and the entity methods of msal-common in their
    simplest form.  It serves to evaluate the methods on concrete caches. *)

Module Sample.
Import BrowserCacheManager.

Definition dq : string := String "034"%char EmptyString.
Definition quote (s : string) : string := dq +:+ s +:+ dq.

Definition commaSep (l : list string) : string :=
  match l with
  | [] => EmptyString
  | x :: l' => foldl (λ acc y, acc +:+ "," +:+ y) x l'
  end.

(** JSON text of a value without nesting. *)
Definition atomText (v : jsval) : string :=
  match v with
  | JNull => "null"
  | JBool true => "true"
  | JBool false => "false"
  | JNum n => pretty n
  | JStr s => quote s
  | JArr _ => "[]"
  | JObj _ => "{}"
  end.

(** JSON text of a property value: an atom or an array of atoms. *)
Definition valueText (v : jsval) : string :=
  match v with
  | JArr l => "[" +:+ commaSep (atomText <$> l) +:+ "]"
  | _ => atomText v
  end.

(** [JSON.stringify] on strings without escapes and on objects whose
    property values are atoms or arrays of atoms. *)
Definition stringify (v : jsval) : string :=
  match v with
  | JObj o =>
      "{" +:+ commaSep ((λ kv, quote kv.1 +:+ ":" +:+ valueText kv.2)
                          <$> map_to_list o) +:+ "}"
  | _ => valueText v
  end.

Definition strField (o : jsobj) (p : string) : string :=
  match o !! p with
  | Some (JStr s) => s
  | _ => EmptyString
  end.

Definition account : jsobj :=
  list_to_map [("homeAccountId", JStr "uid.utid");
               ("environment", JStr "login.windows.net");
               ("realm", JStr "utid");
               ("localAccountId", JStr "oid");
               ("username", JStr "abe@contoso.com");
               ("authorityType", JStr "MSSTS")].

Definition idToken : jsobj :=
  list_to_map [("homeAccountId", JStr "uid.utid");
               ("environment", JStr "login.windows.net");
               ("credentialType", JStr "IdToken");
               ("clientId", JStr "client-1");
               ("realm", JStr "utid");
               ("secret", JStr "header.payload.signature")].

Definition accessToken : jsobj :=
  list_to_map [("homeAccountId", JStr "uid.utid");
               ("environment", JStr "login.windows.net");
               ("credentialType", JStr "AccessToken");
               ("clientId", JStr "client-1");
               ("realm", JStr "utid");
               ("target", JStr "openid profile");
               ("secret", JStr "an-access-token")].

Definition refreshToken : jsobj :=
  list_to_map [("homeAccountId", JStr "uid.utid");
               ("environment", JStr "login.windows.net");
               ("credentialType", JStr "RefreshToken");
               ("clientId", JStr "client-1");
               ("secret", JStr "a-refresh-token")].

Definition appMetadata : jsobj :=
  list_to_map [("clientId", JStr "client-1");
               ("environment", JStr "login.windows.net");
               ("familyId", JStr "1")].

Definition serverTelemetry : jsobj :=
  list_to_map [("failedRequests", JArr []);
               ("errors", JArr []);
               ("cacheHits", JNum 0)].

Definition throttling : jsobj :=
  list_to_map [("throttleTime", JNum 1700000000000);
               ("errorCodes", JArr [JStr "invalid_grant"])].

Definition sampleValues : list jsval :=
  [JObj account; JObj idToken; JObj accessToken; JObj refreshToken;
   JObj appMetadata; JObj serverTelemetry; JObj throttling;
   JArr []; JStr "msal"; JNum 7; JNull].

(** [JSON.parse] on the texts of the sample values; every other text is
    taken to be malformed. *)
Definition parse (s : string) : option jsval :=
  snd <$> list_find (λ v, stringify v = s) sampleValues.

(** Encoded request states: the base64 texts of the library states of id
    "1" and of id "11", the second one followed by a user state. *)
Definition state1 : string := "eyJpZCI6IjEifQ==".
Definition state11 : string := "eyJpZCI6IjExIn0=|userState".

Definition parseRequestState (s : string) : option string :=
  if bool_decide (s = state1) then Some "1"
  else if bool_decide (s = state11) then Some "11"
  else None.

Definition generateAccountKey (o : jsobj) : string :=
  strField o "homeAccountId" +:+ "-" +:+ strField o "environment"
  +:+ "-" +:+ strField o "realm".

Definition generateCredentialKey (o : jsobj) : string :=
  strField o "homeAccountId" +:+ "-" +:+ strField o "environment"
  +:+ "-" +:+ strField o "credentialType" +:+ "-" +:+ strField o "clientId"
  +:+ "-" +:+ strField o "realm" +:+ "-" +:+ strField o "target".

Definition generateAppMetadataKey (o : jsobj) : string :=
  "appmetadata-" +:+ strField o "environment" +:+ "-" +:+ strField o "clientId".

Definition requiredFields (k : EntityKind) : list string :=
  match k with
  | Account => ["homeAccountId"; "environment"; "realm"; "localAccountId";
                "username"; "authorityType"]
  | IdToken => ["homeAccountId"; "environment"; "credentialType"; "realm";
                "clientId"; "secret"]
  | AccessToken => ["homeAccountId"; "environment"; "credentialType"; "realm";
                    "clientId"; "secret"; "target"]
  | RefreshToken => ["homeAccountId"; "environment"; "credentialType";
                     "clientId"; "secret"]
  | AppMetadata => ["clientId"; "environment"]
  | ServerTelemetry => ["failedRequests"; "errors"; "cacheHits"]
  | Throttling => ["throttleTime"]
  end.

Definition keyShape (k : EntityKind) (key : string) : bool :=
  match k with
  | AppMetadata => StringUtils.startsWith key "appmetadata"
  | ServerTelemetry => StringUtils.startsWith key "server-telemetry"
  | Throttling => StringUtils.startsWith key "throttling"
  | _ => true
  end.

(** The removal helpers, reduced to the keys they are named after. *)
Definition isAccountText (s : string) : bool :=
  match parse s with
  | Some (JObj o) => forallb (hasOwnProperty o) (requiredFields Account)
  | _ => false
  end.

Definition removeAllAccounts (st : CacheState) : CacheState :=
  mkCacheState (filter (λ kv, isAccountText kv.2 = false) (browserStorage st))
               (cookies st).

Definition removeAppMetadata (st : CacheState) : CacheState :=
  mkCacheState
    (filter (λ kv, keyShape AppMetadata kv.1 = false) (browserStorage st))
    (cookies st).

Definition env (cookie : bool) : Env :=
  mkEnv "client-1" cookie parse stringify "adal.idtoken" parseRequestState
        generateAccountKey generateCredentialKey generateAppMetadataKey
        requiredFields keyShape removeAllAccounts removeAppMetadata.

(** Running a method of the monad and keeping the cache it leaves. *)
Definition exec {A} (m : M A) (st : CacheState) : CacheState := (m st).2.

End Sample.

Module AuthoritySample.
Import Authority.

Definition aadUrl : string := "https://login.microsoftonline.com/contoso/".
Definition otherUrl : string := "https://login.other.example/common/".

Definition getUrlComponents (url : string) : IUri :=
  if bool_decide (url = aadUrl)
  then mkIUri "login.microsoftonline.com" ["contoso"]
  else if bool_decide (url = otherUrl)
  then mkIUri "login.other.example" ["common"]
  else mkIUri url [].

(** An OpenID configuration document that uses the tenant placeholders. *)
Definition templateConfig : OpenIdConfigResponse :=
  mkOpenIdConfigResponse
    "https://login.microsoftonline.com/{tenant}/oauth2/v2.0/authorize"
    "https://login.microsoftonline.com/{tenant}/oauth2/v2.0/token"
    "https://login.microsoftonline.com/{tenant}/oauth2/v2.0/logout"
    "https://login.microsoftonline.com/{tenantid}/v2.0".

Definition sendGetRequestAsync (url : string)
  : option (option OpenIdConfigResponse) :=
  if bool_decide
       (url = aadUrl +:+ "v2.0/.well-known/openid-configuration")
  then Some (Some templateConfig)
  else None.

Definition aadRegistry : gmap string CloudDiscoveryMetadata :=
  {[ "login.microsoftonline.com" :=
       mkCloudDiscoveryMetadata "login.microsoftonline.com"
         "login.windows.net"
         ["login.microsoftonline.com"; "login.windows.net"] ]}.

(** The instance discovery answers for the hosts of the public cloud and
    leaves the registry as it is for any other host. *)
Definition setTrustedAuthoritiesFromNetwork (url : string)
  (reg : gmap string CloudDiscoveryMetadata)
  : gmap string CloudDiscoveryMetadata :=
  if bool_decide (url = aadUrl) then aadRegistry else reg.

(** The sample urls are in lower case already. *)
Definition env : AuthorityEnv :=
  mkAuthorityEnv Some getUrlComponents (λ s, s) "adfs"
                 sendGetRequestAsync setTrustedAuthoritiesFromNetwork.

Definition newAuthority (url : string) : Authority :=
  mkAuthority url None AAD.

Definition discovered (url : string) : Authority :=
  mkAuthority url (Some templateConfig) AAD.

End AuthoritySample.

(** * Properties *)

(** ** Strings *)

Section StringFacts.

Lemma indexOf_ge (s sub : string) : -1 ≤ indexOf s sub.
Proof.
  induction s as [|c s IH]; cbn [indexOf]; repeat case_match; lia.
Qed.

Lemma startsWith_prefix (s sub : string) :
  StringUtils.startsWith s sub = String.prefix sub s.
Proof.
  unfold StringUtils.startsWith.
  destruct s as [|c s]; cbn [indexOf]; [by repeat case_match|].
  pose proof (indexOf_ge s sub). repeat case_match; try done; lia.
Qed.

Lemma prefix_append (p s : string) : String.prefix p (p +:+ s) = true.
Proof.
  induction p as [|c p IH]; simpl.
  - by destruct s.
  - destruct (Ascii.ascii_dec c c); [done|congruence].
Qed.

Lemma append_inj_r (p a b : string) : p +:+ a = p +:+ b → a = b.
Proof. induction p as [|c p IH]; simpl; [done|]. intros [=]. auto. Qed.

Lemma contains_prefix (p s : string) : contains (p +:+ s) p = true.
Proof.
  unfold contains.
  assert (indexOf (p +:+ s) p = 0) as ->; [|done].
  pose proof (startsWith_prefix (p +:+ s) p) as H.
  rewrite prefix_append in H. by apply Z.eqb_eq in H.
Qed.

End StringFacts.

(** ** Cache keys *)

Module KeyProps.
Import Constants StringUtils BrowserCacheManager CacheEntityStore.

Section Keys.
Context (E : Env).

Lemma validateAndParseJson_start (s : string) :
  JSON_parse_object_start E →
  json_object_start s = false → validateAndParseJson E s = None.
Proof.
  intros HJ Hs. unfold validateAndParseJson.
  destruct (JSON_parse E s) as [v|] eqn:Hp; [|done].
  destruct (truthy v && typeof_object v) eqn:Hv; [|done].
  apply andb_prop in Hv as [Ht Ho].
  rewrite (HJ s v Hp Ht Ho) in Hs. done.
Qed.

Lemma generateCacheKey_prefixed (key : string) :
  JSON_parse_object_start E →
  generateCacheKey E (CACHE_PREFIX +:+ "." +:+ key) = CACHE_PREFIX +:+ "." +:+ key.
Proof.
  intros HJ. unfold generateCacheKey.
  rewrite validateAndParseJson_start; [|done|done].
  by rewrite startsWith_prefix, prefix_append.
Qed.

(** The key of a temporary item named [name.id], for a name that starts
    with a lower-case letter other than m: either the name itself (when it
    starts with the ADAL key) or the name behind [msal.<client-id>.]. *)
Lemma generateCacheKey_cases (key : string) :
  JSON_parse_object_start E →
  json_object_start key = false →
  String.prefix CACHE_PREFIX key = false →
  generateCacheKey E key = key
  ∨ generateCacheKey E key = CACHE_PREFIX +:+ "." +:+ clientId E +:+ "." +:+ key.
Proof.
  intros HJ Hs Hp. unfold generateCacheKey.
  rewrite validateAndParseJson_start by done.
  destruct (_ || _); auto.
Qed.

Lemma requestKeys_eq (state id : string) :
  parseRequestState E state = Some id →
  requestKeys E state
  = Some ((λ name, generateCacheKey E (name +:+ "." +:+ id)) <$> tempNames).
Proof.
  intros Hid. unfold requestKeys, generateStateKey, generateNonceKey,
    generateAuthorityKey. rewrite Hid. done.
Qed.

Lemma tempKey_ne (n1 n2 id1 id2 : string) :
  JSON_parse_object_start E →
  n1 ∈ tempNames → n2 ∈ tempNames → id1 ≠ id2 →
  generateCacheKey E (n1 +:+ "." +:+ id1)
  ≠ generateCacheKey E (n2 +:+ "." +:+ id2).
Proof.
  intros HJ H1 H2 Hne.
  assert (∀ n id, n ∈ tempNames →
            json_object_start (n +:+ "." +:+ id) = false
            ∧ String.prefix CACHE_PREFIX (n +:+ "." +:+ id) = false) as Hshape.
  { intros n id Hn. unfold tempNames in Hn.
    repeat (apply elem_of_cons in Hn as [->|Hn]); [by split..|].
    by apply elem_of_nil in Hn. }
  destruct (Hshape n1 id1 H1) as [Hs1 Hp1], (Hshape n2 id2 H2) as [Hs2 Hp2].
  destruct (generateCacheKey_cases _ HJ Hs1 Hp1) as [-> | ->],
           (generateCacheKey_cases _ HJ Hs2 Hp2) as [-> | ->];
    unfold tempNames in H1, H2;
    repeat (apply elem_of_cons in H1 as [->|H1]);
    try (by apply elem_of_nil in H1);
    repeat (apply elem_of_cons in H2 as [->|H2]);
    try (by apply elem_of_nil in H2);
    intros Heq; cbn in Heq; simplify_eq;
    repeat match goal with
           | H : _ +:+ _ = _ +:+ _ |- _ =>
               apply append_inj_r in H; cbn in H; simplify_eq
           end;
    congruence.
Qed.

(** C9, as the code has it.  [generateCacheKey] is idempotent on keys that
    are not JSON objects: applying it to its own result gives that result
    again.  A key that already starts with the cache prefix or with the ADAL
    id token key is returned as it is, and every other key gets
    [msal.<client-id>.] in front exactly once. *)
Theorem generateCacheKey_idempotent (key : string) :
  JSON_parse_object_start E →
  validateAndParseJson E key = None →
  generateCacheKey E (generateCacheKey E key) = generateCacheKey E key
  ∧ (startsWith key CACHE_PREFIX || startsWith key (ADAL_ID_TOKEN E) = true →
     generateCacheKey E key = key)
  ∧ (startsWith key CACHE_PREFIX || startsWith key (ADAL_ID_TOKEN E) = false →
     generateCacheKey E key
     = CACHE_PREFIX +:+ "." +:+ clientId E +:+ "." +:+ key).
Proof.
  intros HJ Hkey. split_and!.
  - unfold generateCacheKey at 2 3. rewrite Hkey.
    destruct (_ || _) eqn:Hpre.
    + unfold generateCacheKey. by rewrite Hkey, Hpre.
    + by apply generateCacheKey_prefixed.
  - intros Hpre. unfold generateCacheKey. by rewrite Hkey, Hpre.
  - intros Hpre. unfold generateCacheKey. by rewrite Hkey, Hpre.
Qed.

(** C8.  The temporary keys of a request (state, nonce, authority) depend
    on the request state only through the correlation id parsed out of its
    library state: two states with the same id have the same three keys,
    whatever the rest of the state string is, and two states with distinct
    ids have no key in common. *)
Theorem requestKeys_namespaced_by_id (s1 s2 id1 id2 : string) :
  JSON_parse_object_start E →
  parseRequestState E s1 = Some id1 →
  parseRequestState E s2 = Some id2 →
  ∃ keys1 keys2,
    requestKeys E s1 = Some keys1 ∧ requestKeys E s2 = Some keys2
    ∧ length keys1 = 3%nat ∧ length keys2 = 3%nat
    ∧ (id1 = id2 → keys1 = keys2)
    ∧ (id1 ≠ id2 → ∀ k, k ∈ keys1 → k ∉ keys2).
Proof.
  intros HJ H1 H2. eexists _, _.
  split; [by apply requestKeys_eq|]. split; [by apply requestKeys_eq|].
  split_and!; [done|done|by intros ->|].
  intros Hne k Hk1 Hk2.
  apply list_elem_of_fmap in Hk1 as (n1 & -> & Hn1).
  apply list_elem_of_fmap in Hk2 as (n2 & Heq & Hn2).
  by apply (tempKey_ne n1 n2 id1 id2).
Qed.

End Keys.
End KeyProps.

(** ** The entity store *)

Module EntityProps.
Import Constants StringUtils BrowserCacheManager CacheEntityStore.

Section Entities.
Context (E : Env).

(** Every read method has the same shape. *)
Lemma read_unfold (k : EntityKind) (st : CacheState) (key : string) :
  read E k st key
  = match getItem st key with
    | None => None
    | Some s =>
        if bool_decide (s = EmptyString) then None
        else
          let e := toObject newEntity (validateAndParseJson E s) in
          if validate E k key e then Some e else None
    end.
Proof.
  destruct k; unfold read, validate, getAccount, getIdTokenCredential,
    getAccessTokenCredential, getRefreshTokenCredential, getAppMetadata,
    getServerTelemetry, getThrottlingCache;
    by destruct (getItem st key) as [s|].
Qed.

(** Every write method is one [setItem]. *)
Lemma write_unfold (k : EntityKind) (callerKey : string) (e : jsobj)
  (st : CacheState) :
  write E k callerKey e st
  = setItem (storageKey E k callerKey e) (JSON_stringify E (JObj e)) st.
Proof. by destruct k. Qed.

Lemma getItem_setItem (key key' value : string) (st : CacheState) :
  getItem (setItem key value st) key'
  = if decide (key = key') then Some value else getItem st key'.
Proof. unfold getItem, setItem; cbn. apply lookup_insert. Qed.

Lemma getItem_writeAll (ws : list (EntityKind * string * jsobj))
  (st : CacheState) (key : string) :
  Forall (λ w, storageKey E w.1.1 w.1.2 w.2 ≠ key) ws →
  getItem (writeAll E ws st) key = getItem st key.
Proof.
  unfold writeAll. intros Hws. revert st.
  induction Hws as [|w ws Hw _ IH]; intros st; cbn; [done|].
  rewrite IH, write_unfold, getItem_setItem. by rewrite decide_False.
Qed.

Lemma toObject_newEntity_obj (e : jsobj) :
  toObject newEntity (Some (JObj e)) = e.
Proof. unfold toObject, newEntity; cbn. apply (right_id_L ∅ (∪)). Qed.



(** C1, as the code has it.  For each of the five kinds whose set method
    derives the key (account, the three credentials, app metadata), writing
    a valid entity and then reading under the key its own key method gives
    returns that entity, whatever the cache held before and whatever is
    written under other keys afterwards; the key is the same for every
    caller.  For server telemetry and throttling the entity is stored under
    the key the caller passes, and reading under that key returns it.  An
    entity is valid when the validation predicate of its kind accepts it
    and [JSON.parse] undoes [JSON.stringify] on it. *)
Theorem write_read_roundtrip (k : EntityKind) (callerKey : string)
  (e : jsobj) (st : CacheState) (later : list (EntityKind * string * jsobj)) :
  JSON_parse_object_start E →
  JSON_parse E (JSON_stringify E (JObj e)) = Some (JObj e) →
  validate E k (storageKey E k callerKey e) e = true →
  Forall (λ w, storageKey E w.1.1 w.1.2 w.2 ≠ storageKey E k callerKey e)
         later →
  read E k (writeAll E later (write E k callerKey e st))
       (storageKey E k callerKey e) = Some e
  ∧ (callerKeyed k = false →
     ∀ other, storageKey E k other e = storageKey E k callerKey e)
  ∧ (callerKeyed k = true → storageKey E k callerKey e = callerKey).
Proof.
  intros HJ Hrt Hvalid Hlater. split_and!.
  - rewrite read_unfold, getItem_writeAll, write_unfold, getItem_setItem
      by done.
    rewrite decide_True by done.
    assert (json_object_start (JSON_stringify E (JObj e)) = true) as Hstart
      by (by apply (HJ _ _ Hrt)).
    rewrite bool_decide_eq_false_2 by (intros Heq; by rewrite Heq in Hstart).
    unfold validateAndParseJson. rewrite Hrt. cbn [truthy typeof_object andb].
    cbv zeta. by rewrite toObject_newEntity_obj, Hvalid.
  - by destruct k.
  - by destruct k.
Qed.

(** C4, as the code has it.  Every entity write is one [setItem] of the
    JSON text of the entity.  For account, id token, access token, refresh
    token and app metadata the key is computed from the entity by its key
    method and no key of the caller enters; for server telemetry and
    throttling the key is the one the caller passes. *)
Theorem write_key_derivation (k : EntityKind) (callerKey : string)
  (e : jsobj) (st : CacheState) :
  write E k callerKey e st
  = setItem (storageKey E k callerKey e) (JSON_stringify E (JObj e)) st
  ∧ (if callerKeyed k
     then storageKey E k callerKey e = callerKey
     else ∀ other, write E k other e st = write E k callerKey e st).
Proof. split; [apply write_unfold|]. by destruct k. Qed.


End Entities.
End EntityProps.

(** ** The temporary cache *)

Module TemporaryProps.
Import Constants StringUtils BrowserCacheManager CacheEntityStore KeyProps.

Section Temporary.
Context (E : Env).

Lemma elem_of_getKeys (st : CacheState) (k : string) :
  k ∈ getKeys st ↔ is_Some (browserStorage st !! k).
Proof.
  unfold getKeys. rewrite list_elem_of_fmap. split.
  - intros ([k' v] & -> & Hkv). apply elem_of_map_to_list in Hkv. by exists v.
  - intros [v Hv]. exists (k, v). split; [done|]. by apply elem_of_map_to_list.
Qed.

Lemma storage_removeItem (key k : string) (st : CacheState) :
  browserStorage (removeItem E key st) !! k
  = if decide (key = k) then None else browserStorage st !! k.
Proof.
  unfold removeItem, clearItemCookie, setItemCookie.
  destruct (storeAuthStateInCookie E); cbn; apply lookup_delete.
Qed.

Lemma cookies_removeItem (key k : string) (st : CacheState) :
  cookies (removeItem E key st) !! k
  = if storeAuthStateInCookie E && bool_decide (key = k)
    then None else cookies st !! k.
Proof.
  unfold removeItem, clearItemCookie, setItemCookie.
  destruct (storeAuthStateInCookie E); cbn; [|done].
  rewrite lookup_delete. by repeat case_decide; case_bool_decide.
Qed.

(** A [forEach] over a list of keys that removes the keys passing a test. *)
Lemma forEach_remove_frame (Q : CacheState → string → bool)
  (keys : list string) (st : CacheState) (k : string) :
  (∀ st', Q st' k = false) →
  let st' := foldl (λ st key, if Q st key then removeItem E key st else st)
                   st keys in
  browserStorage st' !! k = browserStorage st !! k
  ∧ cookies st' !! k = cookies st !! k.
Proof.
  intros HQ. cbv zeta. revert st.
  induction keys as [|a keys IH]; intros st; cbn [foldl]; [done|].
  destruct (IH (if Q st a then removeItem E a st else st)) as [-> ->].
  destruct (Q st a) eqn:Ha; [|done].
  rewrite storage_removeItem, cookies_removeItem.
  assert (a ≠ k) by (intros ->; by rewrite HQ in Ha).
  rewrite decide_False, bool_decide_eq_false_2 by done.
  by rewrite andb_false_r.
Qed.

Lemma forEach_remove_storage (Q : CacheState → string → bool)
  (P : string → bool) (keys : list string) (st : CacheState) (k : string) :
  (∀ st' key, Q st' key = true → P key = true) →
  (∀ st' key, P key = true → Q st' key = false →
              browserStorage st' !! key = None) →
  browserStorage
    (foldl (λ st key, if Q st key then removeItem E key st else st) st keys)
    !! k
  = if bool_decide (k ∈ keys) && P k then None else browserStorage st !! k.
Proof.
  intros HQP HPQ. revert st.
  induction keys as [|a keys IH]; intros st; cbn [foldl].
  - rewrite bool_decide_eq_false_2; [done|]. apply not_elem_of_nil.
  - rewrite IH. destruct (decide (a = k)) as [->|Hne].
    + rewrite (bool_decide_eq_true_2 (k ∈ k :: keys)) by (apply elem_of_cons; by left).
      cbn [andb]. destruct (P k) eqn:HP.
      * destruct (bool_decide (k ∈ keys)); [done|]. cbn [andb].
        destruct (Q st k) eqn:HQ.
        -- rewrite storage_removeItem. by rewrite decide_True.
        -- by apply HPQ.
      * rewrite andb_false_r. destruct (Q st k) eqn:HQ; [|done].
        apply HQP in HQ. congruence.
    + assert (bool_decide (k ∈ a :: keys) = bool_decide (k ∈ keys)) as ->.
      { apply bool_decide_ext. rewrite elem_of_cons.
        split; [by intros [?|?]; [congruence|]|by right]. }
      destruct (_ && _); [done|].
      destruct (Q st a); [|done].
      rewrite storage_removeItem. by rewrite decide_False.
Qed.

Lemma forEach_remove_cookies (P : string → bool) (keys : list string)
  (st : CacheState) (k : string) :
  cookies (foldl (λ st key, if P key then removeItem E key st else st) st keys)
    !! k
  = if storeAuthStateInCookie E && (bool_decide (k ∈ keys) && P k)
    then None else cookies st !! k.
Proof.
  revert st. induction keys as [|a keys IH]; intros st; cbn [foldl].
  - rewrite (bool_decide_eq_false_2 (k ∈ [])) by apply not_elem_of_nil.
    by rewrite andb_false_r.
  - rewrite IH. destruct (storeAuthStateInCookie E) eqn:Hc; cbn [andb].
    + destruct (decide (a = k)) as [->|Hne].
      * rewrite (bool_decide_eq_true_2 (k ∈ k :: keys))
          by (apply elem_of_cons; by left).
        cbn [andb]. destruct (P k) eqn:HP; [|by rewrite andb_false_r].
        destruct (bool_decide (k ∈ keys)); [done|]. cbn [andb].
        rewrite cookies_removeItem, Hc. by rewrite bool_decide_eq_true_2.
      * assert (bool_decide (k ∈ a :: keys) = bool_decide (k ∈ keys)) as ->.
        { apply bool_decide_ext. rewrite elem_of_cons.
        split; [by intros [?|?]; [congruence|]|by right]. }
        destruct (_ && _); [done|]. destruct (P a); [|done].
        rewrite cookies_removeItem, Hc. by rewrite bool_decide_eq_false_2.
    + destruct (P a); [|done]. by rewrite cookies_removeItem, Hc.
Qed.

(** Running the monad. *)
Lemma bind_Some {A B} (m : M A) (f : A → M B) (st st' : CacheState) (a : A) :
  m st = (Some a, st') → (m ≫= f) st = f a st'.
Proof. unfold mbind, M_bind. by intros ->. Qed.

Lemma requestKeys_parts (state id : string) :
  parseRequestState E state = Some id →
  generateStateKey E state
  = Some (generateCacheKey E (TemporaryCacheKeys.REQUEST_STATE +:+ "." +:+ id))
  ∧ generateNonceKey E state
    = Some (generateCacheKey E (TemporaryCacheKeys.NONCE_IDTOKEN +:+ "." +:+ id))
  ∧ generateAuthorityKey E state
    = Some (generateCacheKey E (TemporaryCacheKeys.AUTHORITY +:+ "." +:+ id)).
Proof.
  intros Hid. unfold generateStateKey, generateNonceKey, generateAuthorityKey.
  by rewrite Hid.
Qed.

(** Two temporary items of one request have different keys. *)
Lemma tempKey_ne_name (n1 n2 id : string) :
  JSON_parse_object_start E →
  n1 ∈ tempNames → n2 ∈ tempNames → n1 ≠ n2 →
  generateCacheKey E (n1 +:+ "." +:+ id)
  ≠ generateCacheKey E (n2 +:+ "." +:+ id).
Proof.
  intros HJ H1 H2 Hne.
  assert (∀ n, n ∈ tempNames →
            json_object_start (n +:+ "." +:+ id) = false
            ∧ String.prefix CACHE_PREFIX (n +:+ "." +:+ id) = false) as Hshape.
  { intros n Hn. unfold tempNames in Hn.
    repeat (apply elem_of_cons in Hn as [->|Hn]); [by split..|].
    by apply elem_of_nil in Hn. }
  destruct (Hshape n1 H1) as [Hs1 Hp1], (Hshape n2 H2) as [Hs2 Hp2].
  destruct (generateCacheKey_cases E _ HJ Hs1 Hp1) as [-> | ->],
           (generateCacheKey_cases E _ HJ Hs2 Hp2) as [-> | ->];
    unfold tempNames in H1, H2;
    repeat (apply elem_of_cons in H1 as [->|H1]);
    try (by apply elem_of_nil in H1);
    repeat (apply elem_of_cons in H2 as [->|H2]);
    try (by apply elem_of_nil in H2);
    try done;
    intros Heq; cbn in Heq; simplify_eq;
    repeat match goal with
           | H : _ +:+ _ = _ +:+ _ |- _ =>
               apply append_inj_r in H; cbn in H; simplify_eq
           end.
Qed.

(** [resetRequestCache] on a state that parses: the cache it leaves. *)
Lemma resetRequestCache_run (state id : string) (st : CacheState) :
  state ≠ EmptyString →
  parseRequestState E state = Some id →
  resetRequestCache E state st
  = (Some (),
     foldl (λ st key, removeItem E key st)
       (foldl (λ st key, if contains key state then removeItem E key st else st)
              st (getKeys st))
       (((λ name, generateCacheKey E (name +:+ "." +:+ id)) <$> tempNames)
        ++ fixedKeys E)).
Proof.
  intros Hne Hid. destruct (requestKeys_parts _ _ Hid) as (Hs & Hn & Ha).
  unfold resetRequestCache. rewrite Hs, Hn, Ha.
  rewrite bool_decide_eq_false_2 by done. cbn [isEmpty].
  rewrite bool_decide_eq_false_2 by done. done.
Qed.

Lemma forEach_removeAll_storage (keys : list string) (st : CacheState)
  (k : string) :
  browserStorage (foldl (λ st key, removeItem E key st) st keys) !! k
  = if bool_decide (k ∈ keys) then None else browserStorage st !! k.
Proof.
  pose proof (forEach_remove_storage (λ _ _, true) (λ _, true) keys st k) as H.
  cbv beta in H. rewrite H by done. by rewrite andb_true_r.
Qed.

Lemma forEach_removeAll_cookies (keys : list string) (st : CacheState)
  (k : string) :
  cookies (foldl (λ st key, removeItem E key st) st keys) !! k
  = if storeAuthStateInCookie E && bool_decide (k ∈ keys)
    then None else cookies st !! k.
Proof.
  pose proof (forEach_remove_cookies (λ _, true) keys st k) as H.
  cbv beta in H. rewrite H. by rewrite andb_true_r.
Qed.

Lemma updateCacheEntries_run (state id nonce authority : string)
  (st : CacheState) :
  JSON_parse_object_start E →
  parseRequestState E state = Some id →
  ∃ st', updateCacheEntries E state nonce authority st = (Some (), st')
    ∧ getItem st' <$> ((λ name, generateCacheKey E (name +:+ "." +:+ id))
                        <$> tempNames)
      = [Some state; Some nonce; Some authority].
Proof.
  intros HJ Hid. destruct (requestKeys_parts _ _ Hid) as (Hs & Hn & Ha).
  unfold updateCacheEntries, setAuthorityCache. rewrite Hs, Hn, Ha.
  eexists. split; [reflexivity|].
  assert (∀ n1 n2, n1 ∈ tempNames → n2 ∈ tempNames → n1 ≠ n2 →
            generateCacheKey E (n1 +:+ "." +:+ id)
            ≠ generateCacheKey E (n2 +:+ "." +:+ id)) as Hne
    by (intros; by apply tempKey_ne_name).
  assert (TemporaryCacheKeys.REQUEST_STATE ∈ tempNames
          ∧ TemporaryCacheKeys.NONCE_IDTOKEN ∈ tempNames
          ∧ TemporaryCacheKeys.AUTHORITY ∈ tempNames) as (H1 & H2 & H3)
    by (unfold tempNames; set_solver).
  pose proof (Hne _ _ H1 H2 ltac:(done)). pose proof (Hne _ _ H1 H3 ltac:(done)).
  pose proof (Hne _ _ H2 H3 ltac:(done)).
  unfold tempNames, setTemporaryCache, setItemCookie, setItem, getItem.
  destruct (storeAuthStateInCookie E); cbn; by simplify_map_eq.
Qed.

(** C7, as the code has it.  [getTemporaryCache] looks the key up in the
    cookies first when the cache is configured to store the request state
    in cookies, and returns the cookie when it is not empty; the window
    storage is read when that configuration is off, or when there is no
    such cookie (or an empty one), and an empty or missing entry there is
    absent.  Without the configuration the cookies are never read. *)
Theorem getTemporaryCache_lookup_order (st : CacheState) (cacheKey : string)
  (generateKey : bool) :
  getTemporaryCache E st cacheKey generateKey
  = let key := if generateKey then generateCacheKey E cacheKey else cacheKey in
    let primary :=
      match browserStorage st !! key with
      | Some value => if bool_decide (value = EmptyString) then None
                      else Some value
      | None => None
      end in
    if storeAuthStateInCookie E then
      match cookies st !! key with
      | Some itemCookie =>
          if bool_decide (itemCookie = EmptyString) then primary
          else Some itemCookie
      | None => primary
      end
    else primary.
Proof.
  unfold getTemporaryCache, getItemCookie, getItem, isEmpty. cbv zeta.
  set (key := if generateKey then _ else _).
  destruct (storeAuthStateInCookie E), (cookies st !! key) as [c|];
    cbn; repeat case_bool_decide; try done;
    destruct (browserStorage st !! key); cbn; by repeat case_bool_decide.
Qed.

(** The cache after the methods of a request.  For a non-empty request
    state that carries the correlation id [id]:
    - [updateCacheEntries] stores the state, the nonce and the authority
      under the three keys of [id];
    - [resetRequestCache] removes from the window storage the three keys of
      [id], the four fixed temporary keys and every key that contains the
      state string, and leaves every other key as it was; with the cookie
      configuration on, the cookies of the removed keys are cleared too;
    - [cleanRequestByState] does the same for the state it finds cached
      under the state key. *)
Lemma request_cleanup_effect (state id : string) (st : CacheState) :
  JSON_parse_object_start E →
  state ≠ EmptyString →
  parseRequestState E state = Some id →
  ∃ keys3,
    requestKeys E state = Some keys3
    ∧ (∀ nonce authority st0, ∃ st1,
         updateCacheEntries E state nonce authority st0 = (Some (), st1)
         ∧ getItem st1 <$> keys3 = [Some state; Some nonce; Some authority])
    ∧ (∃ st',
         resetRequestCache E state st = (Some (), st')
         ∧ (∀ k, browserStorage st' !! k
                 = if contains k state
                      || bool_decide (k ∈ keys3 ++ fixedKeys E)
                   then None else browserStorage st !! k)
         ∧ (∀ k, cookies st' !! k
                 = if storeAuthStateInCookie E
                      && (contains k state
                          && bool_decide (is_Some (browserStorage st !! k))
                          || bool_decide (k ∈ keys3 ++ fixedKeys E))
                   then None else cookies st !! k))
    ∧ (∀ response stateKey,
         response ≠ EmptyString →
         generateStateKey E response = Some stateKey →
         getItem st stateKey = Some state →
         cleanRequestByState E response st = resetRequestCache E state st).
Proof.
  intros HJ Hne Hid. eexists. split; [by apply requestKeys_eq|].
  split_and!.
  - intros nonce authority st0. by apply updateCacheEntries_run.
  - eexists. split; [by apply resetRequestCache_run|]. split; intros k.
    + rewrite forEach_removeAll_storage.
      rewrite (forEach_remove_storage (λ _ key, contains key state)
                 (λ key, contains key state))
        by (intros; cbv beta in *; congruence).
      destruct (bool_decide (k ∈ _ ++ fixedKeys E)); [by rewrite orb_true_r|].
      rewrite orb_false_r. destruct (contains k state); [|by rewrite andb_false_r].
      rewrite andb_true_r. case_bool_decide as Hk; [done|].
      rewrite elem_of_getKeys in Hk.
      destruct (browserStorage st !! k) eqn:Hl; [|done].
      exfalso. apply Hk. by eexists.
    + rewrite forEach_removeAll_cookies, forEach_remove_cookies.
      assert (bool_decide (k ∈ getKeys st)
              = bool_decide (is_Some (browserStorage st !! k))) as ->
        by (apply bool_decide_ext, elem_of_getKeys).
      destruct (storeAuthStateInCookie E); cbn [andb]; [|done].
      destruct (bool_decide (k ∈ _ ++ fixedKeys E)); [by rewrite orb_true_r|].
      rewrite orb_false_r, (andb_comm (contains k state)). done.
  - intros response stateKey Hr Hk Hc. unfold cleanRequestByState.
    rewrite bool_decide_eq_false_2 by done. cbn [negb]. rewrite Hk.
    unfold mbind at 1, M_bind at 1, liftO. unfold mbind at 1, M_bind at 1, gets.
    by rewrite Hc.
Qed.

Lemma prefix_refl (s : string) : String.prefix s s = true.
Proof.
  induction s as [|c s IH]; cbn; [done|].
  by destruct (Ascii.ascii_dec c c).
Qed.

Lemma contains_refl (s : string) : contains s s = true.
Proof.
  unfold contains. destruct s as [|c s]; [done|].
  cbn [indexOf]. by rewrite prefix_refl.
Qed.

Lemma contains_app_r (p s sub : string) :
  contains s sub = true → contains (p +:+ s) sub = true.
Proof.
  unfold contains. induction p as [|c p IH]; [done|].
  change (String c p +:+ s) with (String c (p +:+ s)). cbn [indexOf].
  intros Hs. specialize (IH Hs). pose proof (indexOf_ge (p +:+ s) sub).
  destruct (String.prefix sub (String c (p +:+ s))); [done|].
  destruct (Z.eqb_spec (indexOf (p +:+ s) sub) (-1)) as [Heq|Hne]; [done|].
  apply negb_true_iff, Z.eqb_neq. lia.
Qed.

(** [generateCacheKey] is injective on keys that are neither JSON objects
    nor start with the cache prefix. *)
Lemma generateCacheKey_inj (a b : string) :
  JSON_parse_object_start E →
  json_object_start a = false → String.prefix CACHE_PREFIX a = false →
  json_object_start b = false → String.prefix CACHE_PREFIX b = false →
  generateCacheKey E a = generateCacheKey E b → a = b.
Proof.
  intros HJ Hsa Hpa Hsb Hpb.
  destruct (generateCacheKey_cases E a HJ Hsa Hpa) as [-> | ->],
           (generateCacheKey_cases E b HJ Hsb Hpb) as [-> | ->]; intros Heq.
  - done.
  - rewrite Heq, prefix_append in Hpa. done.
  - rewrite <- Heq, prefix_append in Hpb. done.
  - cbn in Heq. injection Heq as Heq.
    by apply (append_inj_r EmptyString), (append_inj_r (clientId E)),
      (append_inj_r ".") in Heq.
Qed.

Lemma tempName_shape (n id : string) :
  n ∈ tempNames →
  json_object_start (n +:+ "." +:+ id) = false
  ∧ String.prefix CACHE_PREFIX (n +:+ "." +:+ id) = false.
Proof.
  intros Hn. unfold tempNames in Hn.
  repeat (apply elem_of_cons in Hn as [->|Hn]); [by split..|].
  by apply elem_of_nil in Hn.
Qed.

(** The key of a temporary item of a request is not one of the four fixed
    keys. *)
Lemma tempKey_not_fixed (n id : string) :
  JSON_parse_object_start E →
  n ∈ tempNames → generateCacheKey E (n +:+ "." +:+ id) ∉ fixedKeys E.
Proof.
  intros HJ Hn Hin. destruct (tempName_shape n id Hn) as [Hs Hp].
  unfold fixedKeys in Hin. unfold tempNames in Hn.
  repeat (apply elem_of_cons in Hin as [Hin|Hin]);
    try (by apply elem_of_nil in Hin);
    apply generateCacheKey_inj in Hin; try done;
    repeat (apply elem_of_cons in Hn as [->|Hn]);
    try (by apply elem_of_nil in Hn); cbn in Hin; simplify_eq.
Qed.

(** The key of a temporary item of a request contains the correlation id. *)
Lemma tempKey_contains_id (n id : string) :
  JSON_parse_object_start E →
  n ∈ tempNames → contains (generateCacheKey E (n +:+ "." +:+ id)) id = true.
Proof.
  intros HJ Hn. destruct (tempName_shape n id Hn) as [Hs Hp].
  assert (contains (n +:+ "." +:+ id) id = true) as Hc
    by (do 2 apply contains_app_r; apply contains_refl).
  destruct (generateCacheKey_cases E _ HJ Hs Hp) as [-> | ->]; [done|].
  by do 4 apply contains_app_r.
Qed.

(** [updateCacheEntries] writes to the three keys of the request only, and
    to no cookie unless the cookie configuration is on. *)
Lemma updateCacheEntries_frame (state id nonce authority : string)
  (st : CacheState) :
  parseRequestState E state = Some id →
  ∃ st', updateCacheEntries E state nonce authority st = (Some (), st')
    ∧ ∀ k,
        (k ∉ (λ name, generateCacheKey E (name +:+ "." +:+ id)) <$> tempNames →
         browserStorage st' !! k = browserStorage st !! k)
        ∧ (k ∉ (λ name, generateCacheKey E (name +:+ "." +:+ id)) <$> tempNames
           ∨ storeAuthStateInCookie E = false →
           cookies st' !! k = cookies st !! k).
Proof.
  intros Hid. destruct (requestKeys_parts _ _ Hid) as (Hs & Hn & Ha).
  unfold updateCacheEntries, setAuthorityCache. rewrite Hs, Hn, Ha.
  eexists. split; [reflexivity|]. intros k.
  unfold tempNames, setTemporaryCache, setItemCookie, setItem.
  destruct (storeAuthStateInCookie E) eqn:Hc; cbn; split; intros Hk;
    try done; try (destruct Hk as [Hk|Hk]; [|done]);
    rewrite !not_elem_of_cons in Hk; destruct Hk as (? & ? & ? & _);
    by simplify_map_eq.
Qed.

(** A sequence of [updateCacheEntries] calls under one correlation id. *)
Lemma beginRequests_run (id : string) (reqs : list (string * string * string))
  (st0 : CacheState) :
  JSON_parse_object_start E →
  Forall (λ r, r.1.1 ≠ EmptyString ∧ parseRequestState E r.1.1 = Some id) reqs →
  ∃ st1, beginRequests E reqs st0 = (Some (), st1)
    ∧ (∀ k,
         (k ∉ (λ name, generateCacheKey E (name +:+ "." +:+ id)) <$> tempNames →
          browserStorage st1 !! k = browserStorage st0 !! k)
         ∧ (k ∉ (λ name, generateCacheKey E (name +:+ "." +:+ id)) <$> tempNames
            ∨ storeAuthStateInCookie E = false →
            cookies st1 !! k = cookies st0 !! k))
    ∧ (∀ cached, last (reqs.*1.*1) = Some cached →
         cached ≠ EmptyString ∧ parseRequestState E cached = Some id
         ∧ getItem st1 (generateCacheKey E
                          (TemporaryCacheKeys.REQUEST_STATE +:+ "." +:+ id))
           = Some cached).
Proof.
  intros HJ Hreqs. revert st0.
  induction Hreqs as [|[[state nonce] authority] reqs [Hne Hid] Hreqs IH];
    intros st0.
  - exists st0. by split_and!.
  - destruct (updateCacheEntries_frame state id nonce authority st0 Hid)
      as (st' & Hrun & Hframe).
    destruct (updateCacheEntries_run state id nonce authority st0 HJ Hid)
      as (st'' & Hrun' & Hkeys).
    rewrite Hrun in Hrun'. injection Hrun' as <-.
    destruct (IH st') as (st1 & Hrest & Hframe1 & Hlast).
    exists st1. cbn [beginRequests fst snd].
    split; [by rewrite (bind_Some _ _ _ _ _ Hrun)|]. split.
    + intros k. destruct (Hframe k) as [Hs Hc], (Hframe1 k) as [Hs1 Hc1].
      split; intros Hk; [by rewrite Hs1, Hs|by rewrite Hc1, Hc].
    + intros cached. cbn [fmap list_fmap fst]. rewrite last_cons.
      destruct (last (reqs.*1.*1)) as [c|] eqn:Hl.
      * intros [= <-]. by apply Hlast.
      * intros [= <-]. split_and!; [done..|].
        apply last_None in Hl. do 2 apply fmap_nil_inv in Hl. subst reqs.
        cbn in Hrest. injection Hrest as <-.
        unfold tempNames in Hkeys. cbn in Hkeys. by injection Hkeys.
Qed.

(** C6.  For every correlation id [id] and any number of
    [updateCacheEntries] calls under it (each writing the state, nonce and
    authority entries of [id]), the cleanup at the end of the request,
    [cleanRequestByState] or [resetRequestCache] on the cached state,
    - leaves none of the keys the requests have added: a key that was not
      in the window storage (or among the cookies) before the first call is
      not there afterwards, so when the id is freshly minted and no earlier
      key contains it, no key containing it is left;
    - removes the three entries of [id], whose keys contain [id];
    - removes the four fixed temporary items;
    - leaves the temporary entries of every other correlation id as they
      were, in the window storage and among the cookies (the state string,
      an encoded text, being no part of their keys). *)
Theorem request_cleanup_complete (id : string)
  (reqs : list (string * string * string)) (st0 : CacheState) :
  JSON_parse_object_start E →
  reqs ≠ [] →
  Forall (λ r, r.1.1 ≠ EmptyString ∧ parseRequestState E r.1.1 = Some id) reqs →
  ∃ st1,
    beginRequests E reqs st0 = (Some (), st1)
    ∧ ∀ state,
        state ≠ EmptyString → parseRequestState E state = Some id →
        ∃ keys3 cached st2,
          requestKeys E state = Some keys3
          ∧ last (reqs.*1.*1) = Some cached
          ∧ cleanRequestByState E state st1 = (Some (), st2)
          ∧ resetRequestCache E cached st1 = (Some (), st2)
          ∧ (∀ k, browserStorage st0 !! k = None →
                  browserStorage st2 !! k = None)
          ∧ (∀ k, cookies st0 !! k = None → cookies st2 !! k = None)
          ∧ ((∀ k, contains k id = true → browserStorage st0 !! k = None) →
             ∀ k, contains k id = true → browserStorage st2 !! k = None)
          ∧ (∀ k, k ∈ keys3 →
                  contains k id = true ∧ browserStorage st2 !! k = None)
          ∧ (∀ k, k ∈ fixedKeys E → browserStorage st2 !! k = None)
          ∧ (∀ state' id' keys',
               parseRequestState E state' = Some id' → id' ≠ id →
               requestKeys E state' = Some keys' →
               ∀ k, k ∈ keys' → contains k cached = false →
                    browserStorage st2 !! k = browserStorage st0 !! k
                    ∧ cookies st2 !! k = cookies st0 !! k).
Proof.
  intros HJ Hne Hreqs.
  destruct (beginRequests_run id reqs st0 HJ Hreqs)
    as (st1 & Hrun & Hframe & Hlast).
  exists st1. split; [done|]. intros state Hs Hid.
  destruct (last (reqs.*1.*1)) as [cached|] eqn:Hl;
    [|apply last_None in Hl; do 2 apply fmap_nil_inv in Hl; done].
  destruct (Hlast cached eq_refl) as (Hcne & Hcid & Hget).
  destruct (request_cleanup_effect cached id st1 HJ Hcne Hcid)
    as (keys3 & Hkeys & _ & (st2 & Hreset & Hsto & Hcoo) & Hclean).
  assert (keys3 = (λ name, generateCacheKey E (name +:+ "." +:+ id))
                    <$> tempNames) as Hk3
    by (rewrite (requestKeys_eq E cached id Hcid) in Hkeys; congruence).
  assert (∀ k, (k ∉ keys3 →
                browserStorage st1 !! k = browserStorage st0 !! k)
               ∧ (k ∉ keys3 ∨ storeAuthStateInCookie E = false →
                  cookies st1 !! k = cookies st0 !! k)) as Hframe'
    by (by rewrite Hk3).
  clear Hframe. rename Hframe' into Hframe.
  destruct (requestKeys_parts _ _ Hid) as (Hsk & _ & _).
  assert (∀ k, k ∉ keys3 →
            browserStorage st2 !! k
            = (if contains k cached || bool_decide (k ∈ fixedKeys E)
               then None else browserStorage st0 !! k)
            ∧ ((contains k cached || bool_decide (k ∈ fixedKeys E) = false
                ∨ cookies st0 !! k = None) →
               cookies st2 !! k = cookies st0 !! k)) as Hout.
  { intros k Hk. destruct (Hframe k) as [Hfs Hfc].
    assert (bool_decide (k ∈ keys3 ++ fixedKeys E)
            = bool_decide (k ∈ fixedKeys E)) as Hb.
    { apply bool_decide_ext. rewrite elem_of_app.
      split; [by intros [?|?]|by right]. }
    rewrite Hsto, Hcoo, Hb. rewrite Hfs by done. rewrite Hfc by (by left).
    split; [done|]. intros [Hor | Hnone].
    - apply orb_false_elim in Hor as [-> ->]. cbn [andb orb].
      by rewrite andb_false_r.
    - rewrite Hnone. by destruct (_ && _). }
  assert (∀ k, k ∈ keys3 →
            browserStorage st2 !! k = None
            ∧ (cookies st0 !! k = None → cookies st2 !! k = None)) as Hin.
  { intros k Hk. rewrite Hsto, Hcoo.
    rewrite (bool_decide_eq_true_2 (k ∈ keys3 ++ fixedKeys E))
      by (apply elem_of_app; by left).
    rewrite !orb_true_r. split; [done|]. intros Hnone.
    destruct (storeAuthStateInCookie E) eqn:Hc; [done|]. cbn [andb].
    destruct (Hframe k) as [_ Hfc]. rewrite Hfc by (by right). done. }
  exists keys3, cached, st2.
  split; [by rewrite Hk3; apply requestKeys_eq|]. split; [done|].
  split; [by rewrite (Hclean state _ Hs Hsk Hget)|]. split; [done|].
  assert (∀ k, browserStorage st0 !! k = None → browserStorage st2 !! k = None)
    as Ha1.
  { intros k Hnone. destruct (decide (k ∈ keys3)) as [Hk|Hk];
      [by apply Hin|].
    destruct (Hout k Hk) as [-> _]. by destruct (_ || _). }
  split_and!.
  - done.
  - intros k Hnone. destruct (decide (k ∈ keys3)) as [Hk|Hk];
      [by apply Hin|].
    destruct (Hout k Hk) as [_ Hc]. rewrite Hc; [done|by right].
  - intros Hfresh k Hk. apply Ha1. by apply Hfresh.
  - intros k Hk. split; [|by apply Hin].
    rewrite Hk3 in Hk. apply list_elem_of_fmap in Hk as (n & -> & Hn).
    by apply tempKey_contains_id.
  - intros k Hk. rewrite Hsto.
    rewrite (bool_decide_eq_true_2 (k ∈ keys3 ++ fixedKeys E))
      by (apply elem_of_app; by right).
    by rewrite orb_true_r.
  - intros state' id' keys' Hid' Hneq Hkeys' k Hk Hcontains.
    assert (keys' = (λ name, generateCacheKey E (name +:+ "." +:+ id'))
                      <$> tempNames) as ->
      by (rewrite (requestKeys_eq E state' id' Hid') in Hkeys'; congruence).
    apply list_elem_of_fmap in Hk as (n' & -> & Hn').
    assert (generateCacheKey E (n' +:+ "." +:+ id') ∉ keys3) as Hnot3.
    { intros Hk. rewrite Hk3 in Hk.
      apply list_elem_of_fmap in Hk as (n & Heq & Hn).
      by apply (tempKey_ne E n' n id' id). }
    pose proof (tempKey_not_fixed n' id' HJ Hn') as Hfix.
    destruct (Hout _ Hnot3) as [Hs2 Hc2].
    rewrite Hs2, Hcontains, bool_decide_eq_false_2 by done.
    split; [done|]. apply Hc2. left.
    by rewrite Hcontains, bool_decide_eq_false_2.
Qed.

(** C10.  [clear()] first runs the two removal helpers for accounts and app
    metadata; of what they leave, it removes exactly the keys that contain
    the cache prefix or the client id, and a key that contains neither
    keeps its entry in the window storage and its cookie. *)
Theorem clear_frame (st : CacheState) (k : string) :
  let rest := removeAppMetadata E (removeAllAccounts E st) in
  browserStorage (clear E st) !! k
  = (if contains k CACHE_PREFIX || contains k (clientId E)
     then None else browserStorage rest !! k)
  ∧ (contains k CACHE_PREFIX || contains k (clientId E) = false →
     cookies (clear E st) !! k = cookies rest !! k).
Proof.
  cbv zeta. unfold clear. set (rest := removeAppMetadata E _).
  set (P := λ key : string, contains key CACHE_PREFIX || contains key (clientId E)).
  split.
  - rewrite (forEach_remove_storage
               (λ st key, containsKey st key && P key) P).
    + fold (P k). destruct (P k); [|by rewrite andb_false_r].
      rewrite andb_true_r. case_bool_decide as Hk; [done|].
      rewrite elem_of_getKeys in Hk.
      destruct (browserStorage rest !! k) eqn:Hl; [|done].
      exfalso. apply Hk. by eexists.
    + intros st' key HQ. by apply andb_prop in HQ as [_ ?].
    + intros st' key HP HQ. rewrite HP, andb_true_r in HQ.
      unfold containsKey in HQ. apply bool_decide_eq_false_1 in HQ.
      destruct (browserStorage st' !! key) eqn:Hl; [|done].
      exfalso. apply HQ. by eexists.
  - intros HP.
    apply (forEach_remove_frame (λ st key, containsKey st key && P key)).
    intros st'. unfold P. by rewrite HP, andb_false_r.
Qed.

End Temporary.
End TemporaryProps.

(** ** Authority *)

Module AuthorityProps.
Import Authority.

Section Resolve.
Context (N : AuthorityEnv).

Lemma getTrustedHostList_empty (w : World) :
  length (getTrustedHostList w) = 0%nat ↔ TrustedHostList w = ∅.
Proof.
  unfold getTrustedHostList. rewrite length_fmap, length_zero_iff_nil.
  apply map_to_list_empty_iff.
Qed.

(** Before discovery every endpoint getter throws. *)
Lemma endpoints_before_discovery (a : Authority) :
  tenantDiscoveryResponse a = None →
  discoveryComplete a = false
  ∧ authorizationEndpoint N a = Throw EndpointDiscoveryIncompleteError
  ∧ tokenEndpoint N a = Throw EndpointDiscoveryIncompleteError
  ∧ deviceCodeEndpoint a = Throw EndpointDiscoveryIncompleteError
  ∧ endSessionEndpoint N a = Throw EndpointDiscoveryIncompleteError
  ∧ selfSignedJwtAudience N a = Throw EndpointDiscoveryIncompleteError.
Proof.
  intros Hnone. unfold discoveryComplete, authorizationEndpoint, tokenEndpoint,
    deviceCodeEndpoint, endSessionEndpoint, selfSignedJwtAudience.
  rewrite Hnone. by split_and!.
Qed.

(** C2.  When the host of the authority is not in the trust registry, the
    registry being refreshed from the network first if and only if it was
    empty, [resolveEndpointsAsync] throws the untrusted-authority error,
    sends no request for the OpenID configuration and leaves the authority
    object as it was. *)
Theorem untrusted_authority_no_discovery (w : World) :
  let host := HostNameAndPort (canonicalAuthorityUrlComponents N (this w)) in
  let registry :=
    if bool_decide (TrustedHostList w = ∅)
    then setTrustedAuthoritiesFromNetwork N (canonicalAuthority (this w))
                                          (TrustedHostList w)
    else TrustedHostList w in
  registry !! host = None →
  ∃ w', resolveEndpointsAsync N w = (Throw UntrustedAuthorityError, w')
        ∧ openIdRequests w' = openIdRequests w
        ∧ this w' = this w
        ∧ TrustedHostList w' = registry.
Proof.
  cbv zeta. intros Hhost.
  unfold resolveEndpointsAsync, validateAndSetPreferredNetwork.
  unfold mbind, AM_bind, getW, modifyW, mret, AM_ret, throw,
    IsInTrustedHostList.
  cbn [this TrustedHostList openIdRequests].
  assert (bool_decide (length (getTrustedHostList w) = 0%nat)
          = bool_decide (TrustedHostList w = ∅)) as ->
    by apply bool_decide_ext, getTrustedHostList_empty.
  destruct (bool_decide (TrustedHostList w = ∅));
    cbn [this TrustedHostList openIdRequests];
    rewrite bool_decide_eq_false_2
      by (rewrite Hhost; by intros [? ?]);
    cbn [negb]; by eexists.
Qed.

End Resolve.

(** C3 fails on [deviceCodeEndpoint].  For the authority
    [https://login.microsoftonline.com/contoso/] and a configuration
    document whose endpoints use the [{tenant}] placeholder, discovery
    succeeds, [tokenEndpoint] (like the three other getters that call
    [replaceTenant]) returns the url with [contoso] in place of the
    placeholder, and [deviceCodeEndpoint] returns the url with the
    placeholder still in it. *)
Theorem deviceCodeEndpoint_keeps_placeholder :
  let N := AuthoritySample.env in
  let a := AuthoritySample.discovered AuthoritySample.aadUrl in
  resolveEndpointsAsync N
    (mkWorld (AuthoritySample.newAuthority AuthoritySample.aadUrl) ∅ [])
  = (Ok (),
     mkWorld a AuthoritySample.aadRegistry
       ["https://login.microsoftonline.com/contoso/v2.0/.well-known/openid-configuration"])
  ∧ tenant N a = Some "contoso"
  ∧ authorizationEndpoint N a
    = Ok "https://login.microsoftonline.com/contoso/oauth2/v2.0/authorize"
  ∧ tokenEndpoint N a
    = Ok "https://login.microsoftonline.com/contoso/oauth2/v2.0/token"
  ∧ endSessionEndpoint N a
    = Ok "https://login.microsoftonline.com/contoso/oauth2/v2.0/logout"
  ∧ selfSignedJwtAudience N a
    = Ok "https://login.microsoftonline.com/contoso/v2.0"
  ∧ deviceCodeEndpoint a
    = Ok "https://login.microsoftonline.com/{tenant}/oauth2/v2.0/devicecode".
Proof. cbv zeta. split_and!; vm_compute; reflexivity. Qed.

(** The host [login.other.example] is in no registry. *)
Lemma untrusted_authority_no_discovery_witness :
  ∃ w', resolveEndpointsAsync AuthoritySample.env
          (mkWorld (AuthoritySample.newAuthority AuthoritySample.otherUrl) ∅ [])
        = (Throw UntrustedAuthorityError, w')
        ∧ openIdRequests w' = [].
Proof.
  destruct (untrusted_authority_no_discovery AuthoritySample.env
              (mkWorld (AuthoritySample.newAuthority AuthoritySample.otherUrl)
                       ∅ []))
    as (w' & Hrun & Hreq & _); [vm_compute; reflexivity|].
  exists w'. by split.
Defined.

End AuthorityProps.

(** ** The cache manager on the sample environment *)

Module CacheExamples.
Import Constants StringUtils BrowserCacheManager CacheEntityStore.
Import KeyProps EntityProps TemporaryProps.

(** Closing a goal by evaluation. *)
Ltac run := vm_compute; first [reflexivity | discriminate].

(** The sample [JSON.parse] has the property assumed of [JSON.parse]. *)
Lemma sample_parse_object_start (cookie : bool) :
  JSON_parse_object_start (Sample.env cookie).
Proof.
  intros s v Hp Ht Ho. change (Sample.parse s = Some v) in Hp.
  unfold Sample.parse in Hp.
  apply fmap_Some in Hp as ([i v'] & Hfind & ->).
  apply list_find_Some in Hfind as (_ & <- & _). cbn [snd] in *.
  by destruct v'.
Qed.

(** C9 on the key of the cached request parameters. *)
Lemma generateCacheKey_idempotent_witness :
  let E := Sample.env false in
  validateAndParseJson E "request.params" = None
  ∧ generateCacheKey E "request.params" = "msal.client-1.request.params"
  ∧ generateCacheKey E (generateCacheKey E "request.params")
    = generateCacheKey E "request.params".
Proof.
  cbv zeta. split; [run|]. split; [run|].
  destruct (generateCacheKey_idempotent (Sample.env false) "request.params")
    as (Hidem & _ & _);
    [apply sample_parse_object_start | run | exact Hidem].
Defined.

(** C9 fails on the ADAL id token key: it does not start with the cache
    prefix, and it is returned as it is, without prefix and client id. *)
Lemma generateCacheKey_adal_key_unprefixed :
  let E := Sample.env false in
  validateAndParseJson E "adal.idtoken" = None
  ∧ startsWith "adal.idtoken" CACHE_PREFIX = false
  ∧ generateCacheKey E "adal.idtoken" = "adal.idtoken"
  ∧ startsWith (generateCacheKey E "adal.idtoken") CACHE_PREFIX = false.
Proof. cbv zeta. split; [run|]. split; [run|]. split; run. Qed.

(** C8 on the states of the correlation ids 1 and 11. *)
Lemma requestKeys_namespaced_by_id_witness :
  let E := Sample.env false in
  ∃ keys1 keys2,
    requestKeys E Sample.state1 = Some keys1
    ∧ requestKeys E Sample.state11 = Some keys2
    ∧ ∀ k, k ∈ keys1 → k ∉ keys2.
Proof.
  cbv zeta.
  destruct (requestKeys_namespaced_by_id (Sample.env false)
              Sample.state1 Sample.state11 "1" "11")
    as (keys1 & keys2 & H1 & H2 & _ & _ & _ & Hdisj);
    [apply sample_parse_object_start | run | run |].
  exists keys1, keys2. split_and!; [done|done|]. by apply Hdisj.
Defined.

(** C1 on the sample account, with an id token written afterwards. *)
Lemma write_read_roundtrip_witness :
  let E := Sample.env false in
  let key := generateAccountKey E Sample.account in
  key = "uid.utid-login.windows.net-utid"
  ∧ getAccount E
      (setIdTokenCredential E Sample.idToken
         (setAccount E Sample.account emptyCache)) key
    = Some Sample.account.
Proof.
  cbv zeta. split; [run|].
  destruct (write_read_roundtrip (Sample.env false) Account EmptyString
              Sample.account emptyCache
              [(IdToken, EmptyString, Sample.idToken)])
    as (Hread & _ & _).
  - apply sample_parse_object_start.
  - run.
  - run.
  - apply Forall_cons. split; [|apply Forall_nil_2].
    vm_compute. discriminate.
  - exact Hread.
Defined.


(** C6 on two requests under the correlation id 1, starting from an empty
    cache: the cleanup leaves the cache empty. *)
Lemma request_cleanup_complete_witness :
  let E := Sample.env true in
  let reqs :=
    [(Sample.state1, "N1", "https://login.example.com/common/");
     (Sample.state1, "N2", "https://login.example.com/common/")] in
  ∃ st1 st2,
    beginRequests E reqs emptyCache = (Some (), st1)
    ∧ cleanRequestByState E Sample.state1 st1 = (Some (), st2)
    ∧ ∀ k, browserStorage st2 !! k = None.
Proof.
  cbv zeta.
  destruct (request_cleanup_complete (Sample.env true) "1"
              [(Sample.state1, "N1", "https://login.example.com/common/");
               (Sample.state1, "N2", "https://login.example.com/common/")]
              emptyCache)
    as (st1 & Hrun & Hall).
  - apply sample_parse_object_start.
  - discriminate.
  - apply Forall_cons. split; [split; [discriminate|run]|].
    apply Forall_cons. split; [split; [discriminate|run]|]. apply Forall_nil_2.
  - destruct (Hall Sample.state1)
      as (keys3 & cached & st2 & _ & _ & Hclean & _ & Ha1 & _);
      [discriminate|run|].
    exists st1, st2. split; [exact Hrun|]. split; [exact Hclean|].
    intros k. apply Ha1. apply lookup_empty.
Defined.

(** C1 fails for server telemetry: the set method stores the entity under
    the key of its caller, so one and the same entity is found under a key
    after one write and is not found under it after another. *)
Lemma serverTelemetry_read_depends_on_caller_key :
  let E := Sample.env false in
  let e := Sample.serverTelemetry in
  validate E ServerTelemetry "server-telemetry-client-1" e = true
  ∧ getServerTelemetry E
      (setServerTelemetry E "server-telemetry-client-1" e emptyCache)
      "server-telemetry-client-1" = Some e
  ∧ validate E ServerTelemetry "server-telemetry-client-2" e = true
  ∧ getServerTelemetry E
      (setServerTelemetry E "server-telemetry-client-2" e emptyCache)
      "server-telemetry-client-1" = None.
Proof. cbv zeta. split; [run|]. split; [run|]. split; run. Qed.

(** C4 fails for throttling (and for server telemetry): the storage key is
    the one the caller passes, not one derived from the entity. *)
Lemma setThrottlingCache_key_from_caller :
  let E := Sample.env false in
  let e := Sample.throttling in
  getKeys (setThrottlingCache E "throttling.thumbprint-a" e emptyCache)
  = ["throttling.thumbprint-a"]
  ∧ getKeys (setThrottlingCache E "throttling.thumbprint-b" e emptyCache)
    = ["throttling.thumbprint-b"]
  ∧ getKeys (setServerTelemetry E "any key at all" Sample.serverTelemetry
               emptyCache)
    = ["any key at all"].
Proof. cbv zeta. split; [run|]. split; run. Qed.

(** C7 fails when the two stores differ: with the cookie configuration
    on, a value set through [setTemporaryCache] and then overwritten in the
    window storage through [setItem] is still read from the cookie. *)
Lemma getTemporaryCache_reads_cookie_first :
  let E := Sample.env true in
  let st :=
    setItem "msal.client-1.urlHash" "new"
      (setTemporaryCache E "msal.client-1.urlHash" "old" false emptyCache) in
  getItem st "msal.client-1.urlHash" = Some "new"
  ∧ getTemporaryCache E st "msal.client-1.urlHash" false = Some "old".
Proof. cbv zeta. split; run. Qed.

End CacheExamples.

(** ** Further properties of the temporary cache *)

Module TemporaryMore.
Import Constants StringUtils BrowserCacheManager CacheEntityStore.
Import KeyProps TemporaryProps.

Section More.
Context (E : Env).

(** A value stored with [setTemporaryCache] is what [getTemporaryCache]
    returns for the same key, with or without the cookie configuration and
    whatever cookie of that name there was before; an empty value reads as
    absent.  Reading any other key gives what it gave before. *)
Theorem setTemporaryCache_getTemporaryCache (st : CacheState)
  (cacheKey value : string) (generateKey : bool) :
  getTemporaryCache E (setTemporaryCache E cacheKey value generateKey st)
    cacheKey generateKey
  = (if bool_decide (value = EmptyString) then None else Some value)
  ∧ ∀ other,
      other ≠ (if generateKey then generateCacheKey E cacheKey else cacheKey) →
      getTemporaryCache E (setTemporaryCache E cacheKey value generateKey st)
        other false
      = getTemporaryCache E st other false.
Proof.
  unfold getTemporaryCache, setTemporaryCache, getItemCookie, getItem,
    setItemCookie, setItem, isEmpty.
  set (key := if generateKey then _ else _).
  split; [|intros other Hother];
    destruct (storeAuthStateInCookie E); cbn; simplify_map_eq; cbn;
    by repeat case_bool_decide.
Qed.

(** After [removeItem] the key reads as absent, from the window storage and
    through [getTemporaryCache]; every other key keeps its entry and its
    cookie.  [removeItem] touches the cookies only under the cookie
    configuration. *)
Theorem removeItem_effect (st : CacheState) (key : string) :
  containsKey (removeItem E key st) key = false
  ∧ getItem (removeItem E key st) key = None
  ∧ getTemporaryCache E (removeItem E key st) key false = None
  ∧ (∀ other, other ≠ key →
       getItem (removeItem E key st) other = getItem st other
       ∧ cookies (removeItem E key st) !! other = cookies st !! other)
  ∧ (storeAuthStateInCookie E = false →
     cookies (removeItem E key st) = cookies st).
Proof.
  unfold containsKey, getTemporaryCache, getItemCookie, getItem, removeItem,
    clearItemCookie, setItemCookie, isEmpty.
  destruct (storeAuthStateInCookie E); cbn; split_and!; try done;
    try (intros other Hother; split); simplify_map_eq; try done;
    apply bool_decide_eq_false_2; by intros [? ?].
Qed.

(** [resetRequestCache] on the empty state: nothing is swept, although
    every key contains the empty string, and no state is parsed; the four
    fixed keys are removed. *)
Lemma resetRequestCache_empty (st : CacheState) :
  ∃ st', resetRequestCache E EmptyString st = (Some (), st')
    ∧ ∀ k, browserStorage st' !! k
           = if bool_decide (k ∈ fixedKeys E) then None
             else browserStorage st !! k.
Proof.
  unfold resetRequestCache.
  rewrite (bool_decide_eq_true_2 (EmptyString = EmptyString)) by done.
  eexists. split; [reflexivity|]. intros k.
  rewrite !storage_removeItem.
  destruct (forEach_remove_frame E
              (λ _ key, negb (isEmpty (Some EmptyString))
                        && contains key EmptyString)
              (getKeys st) st k) as [-> _]; [done|].
  unfold fixedKeys.
  repeat case_decide; case_bool_decide as Hin; try done; exfalso;
    rewrite ?elem_of_cons, ?elem_of_nil in Hin; intuition congruence.
Qed.

(** [cleanRequestByState] when nothing is cached under the state key of the
    request: only the four fixed keys are removed, so nonce and authority
    entries of that request, if there are any, stay in the cache. *)
Theorem cleanRequestByState_nothing_cached (state id : string)
  (st : CacheState) :
  state ≠ EmptyString →
  parseRequestState E state = Some id →
  getItem st (generateCacheKey E
                (TemporaryCacheKeys.REQUEST_STATE +:+ "." +:+ id)) = None →
  ∃ st', cleanRequestByState E state st = (Some (), st')
    ∧ ∀ k, browserStorage st' !! k
           = if bool_decide (k ∈ fixedKeys E) then None
             else browserStorage st !! k.
Proof.
  intros Hne Hid Hnone. destruct (requestKeys_parts E _ _ Hid) as (Hs & _ & _).
  destruct (resetRequestCache_empty st) as (st' & Hrun & Hst).
  exists st'. split; [|done].
  unfold cleanRequestByState. rewrite bool_decide_eq_false_2 by done.
  cbn [negb]. rewrite Hs.
  unfold mbind at 1, M_bind at 1, liftO. unfold mbind at 1, M_bind at 1, gets.
  by rewrite Hnone.
Qed.

(** A state that does not parse: [updateCacheEntries] and
    [cleanRequestByState] throw before they touch the cache, and
    [resetRequestCache] throws after its sweep, so the keys that contain the
    state string are gone while the four fixed keys are still there. *)
Theorem unparsable_state_throws (state : string) (st : CacheState) :
  state ≠ EmptyString →
  parseRequestState E state = None →
  (∀ nonce authority,
     updateCacheEntries E state nonce authority st = (None, st))
  ∧ cleanRequestByState E state st = (None, st)
  ∧ ∃ st', resetRequestCache E state st = (None, st')
      ∧ ∀ k, browserStorage st' !! k
             = if contains k state then None else browserStorage st !! k.
Proof.
  intros Hne Hno. split_and!.
  - intros nonce authority. unfold updateCacheEntries, generateStateKey.
    by rewrite Hno.
  - unfold cleanRequestByState, generateStateKey.
    rewrite bool_decide_eq_false_2 by done. by rewrite Hno.
  - unfold resetRequestCache, generateStateKey. rewrite Hno.
    cbn [isEmpty]. rewrite bool_decide_eq_false_2 by done. cbn [negb andb].
    eexists. split; [reflexivity|]. intros k.
    rewrite (forEach_remove_storage E (λ _ key, contains key state)
               (λ key, contains key state))
      by (intros; cbv beta in *; congruence).
    destruct (contains k state); [|by rewrite andb_false_r].
    rewrite andb_true_r. case_bool_decide as Hk; [done|].
    rewrite elem_of_getKeys in Hk.
    destruct (browserStorage st !! k) eqn:Hl; [|done].
    exfalso. apply Hk. by eexists.
Qed.

(** After [updateCacheEntries], [getCachedAuthority] on the same state
    finds the state and returns the authority just cached, empty reading as
    absent.  The authority is written to the window storage only, so under
    the cookie configuration a non-empty cookie left under the authority
    key is returned in its place. *)
Theorem getCachedAuthority_after_update (state id nonce authority : string)
  (st0 : CacheState) :
  JSON_parse_object_start E →
  state ≠ EmptyString →
  parseRequestState E state = Some id →
  ∃ st1,
    updateCacheEntries E state nonce authority st0 = (Some (), st1)
    ∧ getCachedAuthority E state st1
      = (Some
           (let cached := if bool_decide (authority = EmptyString) then None
                          else Some authority in
            if storeAuthStateInCookie E then
              match cookies st0 !! generateCacheKey E
                      (TemporaryCacheKeys.AUTHORITY +:+ "." +:+ id) with
              | Some stale =>
                  if bool_decide (stale = EmptyString) then cached
                  else Some stale
              | None => cached
              end
            else cached),
         st1).
Proof.
  intros HJ Hne Hid. destruct (requestKeys_parts E _ _ Hid) as (Hs & Hn & Ha).
  assert (∀ n1 n2, n1 ∈ tempNames → n2 ∈ tempNames → n1 ≠ n2 →
            generateCacheKey E (n1 +:+ "." +:+ id)
            ≠ generateCacheKey E (n2 +:+ "." +:+ id)) as Hdiff
    by (intros; by apply tempKey_ne_name).
  assert (TemporaryCacheKeys.REQUEST_STATE ∈ tempNames
          ∧ TemporaryCacheKeys.NONCE_IDTOKEN ∈ tempNames
          ∧ TemporaryCacheKeys.AUTHORITY ∈ tempNames) as (H1 & H2 & H3)
    by (unfold tempNames; rewrite !elem_of_cons; tauto).
  pose proof (Hdiff _ _ H1 H2 ltac:(done)).
  pose proof (Hdiff _ _ H1 H3 ltac:(done)).
  pose proof (Hdiff _ _ H2 H3 ltac:(done)).
  unfold updateCacheEntries, setAuthorityCache, getCachedAuthority.
  rewrite Hs, Hn, Ha. eexists. split; [reflexivity|].
  unfold mbind, M_bind, liftO, gets, modify, mret, M_ret, getTemporaryCache,
    getItemCookie, getItem, setTemporaryCache, setItemCookie, setItem, isEmpty.
  destruct (storeAuthStateInCookie E); cbn; simplify_map_eq; cbn;
    rewrite ?(bool_decide_eq_false_2 (state = EmptyString)) by done; cbn;
    rewrite ?Hid; cbn; simplify_map_eq; cbn.
  - destruct (cookies st0 !! _) as [stale|]; cbn;
      by repeat case_bool_decide.
  - by repeat case_bool_decide.
Qed.

(** [generateCacheKey] maps different keys to different cache keys, as long
    as they are not JSON objects and do not start with the cache prefix:
    no two temporary items share a cache key. *)
Theorem generateCacheKey_injective (a b : string) :
  JSON_parse_object_start E →
  validateAndParseJson E a = None → validateAndParseJson E b = None →
  startsWith a CACHE_PREFIX = false → startsWith b CACHE_PREFIX = false →
  generateCacheKey E a = generateCacheKey E b → a = b.
Proof.
  intros HJ Ha Hb Hpa Hpb. rewrite startsWith_prefix in Hpa, Hpb.
  unfold generateCacheKey. rewrite Ha, Hb, !startsWith_prefix, Hpa, Hpb.
  cbn [orb].
  destruct (String.prefix (ADAL_ID_TOKEN E) a),
           (String.prefix (ADAL_ID_TOKEN E) b); intros Heq.
  - done.
  - rewrite Heq, prefix_append in Hpa. done.
  - rewrite <- Heq, prefix_append in Hpb. done.
  - by apply (append_inj_r CACHE_PREFIX), (append_inj_r "."),
      (append_inj_r (clientId E)), (append_inj_r ".") in Heq.
Qed.

(** [updateCacheEntries] writes to the three keys of the correlation id and
    to nothing else: every other entry of the window storage and every
    other cookie is as before, and without the cookie configuration no
    cookie changes at all. *)
Theorem updateCacheEntries_writes_three_keys (state id nonce authority : string)
  (st : CacheState) :
  parseRequestState E state = Some id →
  ∃ keys3 st',
    requestKeys E state = Some keys3
    ∧ updateCacheEntries E state nonce authority st = (Some (), st')
    ∧ (∀ k, k ∉ keys3 →
            browserStorage st' !! k = browserStorage st !! k
            ∧ cookies st' !! k = cookies st !! k)
    ∧ (storeAuthStateInCookie E = false → cookies st' = cookies st).
Proof.
  intros Hid.
  destruct (updateCacheEntries_frame E state id nonce authority st Hid)
    as (st' & Hrun & Hframe).
  eexists _, st'. split; [by apply requestKeys_eq|]. split; [done|]. split.
  - intros k Hk. destruct (Hframe k) as [Hs Hc]. split; [by apply Hs|].
    apply Hc. by left.
  - intros Hoff. apply map_eq. intros k. destruct (Hframe k) as [_ Hc].
    apply Hc. by right.
Qed.

(** [clear()] removes every entry stored under a generated cache key: a
    key that [generateCacheKey] has put behind [msal.<client-id>.], or that
    started with the cache prefix already, is not in the window storage
    afterwards, whatever the two removal helpers do. *)
Theorem clear_removes_generated_keys (st : CacheState) (key : string) :
  validateAndParseJson E key = None →
  startsWith key CACHE_PREFIX = true ∨ startsWith key (ADAL_ID_TOKEN E) = false →
  browserStorage (clear E st) !! generateCacheKey E key = None.
Proof.
  intros Hkey Hpre.
  assert (contains (generateCacheKey E key) CACHE_PREFIX = true) as Hc.
  { unfold generateCacheKey. rewrite Hkey.
    destruct (startsWith key CACHE_PREFIX) eqn:Hp; cbn [orb].
    - unfold startsWith in Hp. apply Z.eqb_eq in Hp.
      unfold contains. by rewrite Hp.
    - destruct Hpre as [? | Hadal]; [done|]. rewrite Hadal.
      apply contains_prefix. }
  unfold clear.
  set (P := λ k : string, contains k CACHE_PREFIX || contains k (clientId E)).
  rewrite (forEach_remove_storage E (λ st k, containsKey st k && P k) P).
  - unfold P. rewrite Hc. cbn [orb]. rewrite andb_true_r.
    case_bool_decide as Hk; [done|]. rewrite elem_of_getKeys in Hk.
    destruct (browserStorage _ !! _) eqn:Hl; [|done].
    exfalso. apply Hk. by eexists.
  - intros st' k HQ. by apply andb_prop in HQ as [_ ?].
  - intros st' k HP HQ. rewrite HP, andb_true_r in HQ.
    apply bool_decide_eq_false_1 in HQ.
    destruct (browserStorage st' !! k) eqn:Hl; [|done].
    exfalso. apply HQ. by eexists.
Qed.

End More.
End TemporaryMore.

(** ** Further properties of the authority *)

Module AuthorityMore.
Import Authority.

Section More.
Context (N : AuthorityEnv).

Lemma contains_cons_false (c : ascii) (s p : string) :
  contains (String c s) p = false →
  String.prefix p (String c s) = false ∧ contains s p = false.
Proof.
  unfold contains. cbn [indexOf].
  destruct (String.prefix p (String c s)); [done|]. intros H. split; [done|].
  destruct (Z.eqb_spec (indexOf s p) (-1)) as [Heq|Hne]; [done|].
  pose proof (indexOf_ge s p). apply negb_false_iff, Z.eqb_eq in H. lia.
Qed.

Lemma replacePlaceholders_no_placeholder (by_ s : string) :
  contains s "{tenant}" = false → contains s "{tenantid}" = false →
  replacePlaceholders by_ O s = s.
Proof.
  induction s as [|c s IH]; [done|]. intros H1 H2.
  apply contains_cons_false in H1 as [Hp1 H1].
  apply contains_cons_false in H2 as [Hp2 H2].
  cbn [replacePlaceholders]. rewrite Hp1, Hp2. by rewrite IH.
Qed.



(** A discovery document without placeholders is handed out as it is: the
    four getters that call [replaceTenant] return the urls of the document
    unchanged. *)
Theorem endpoints_without_placeholder (a : Authority)
  (r : OpenIdConfigResponse) :
  tenantDiscoveryResponse a = Some r →
  Forall (λ u, contains u "{tenant}" = false ∧ contains u "{tenantid}" = false)
         [authorization_endpoint r; token_endpoint r; end_session_endpoint r;
          issuer r] →
  authorizationEndpoint N a = Ok (authorization_endpoint r)
  ∧ tokenEndpoint N a = Ok (token_endpoint r)
  ∧ endSessionEndpoint N a = Ok (end_session_endpoint r)
  ∧ selfSignedJwtAudience N a = Ok (issuer r).
Proof.
  intros Hr Hall. rewrite !Forall_cons in Hall.
  destruct Hall as ([? ?] & [? ?] & [? ?] & [? ?] & _).
  unfold authorizationEndpoint, tokenEndpoint, endSessionEndpoint,
    selfSignedJwtAudience, replaceTenant. rewrite Hr.
  by rewrite !replacePlaceholders_no_placeholder.
Qed.

(** [resolveEndpointsAsync] on a trusted host.  The canonical url is
    rewritten to the preferred network of the host when that differs from
    the host; exactly one GET request is sent, to the OpenID configuration
    endpoint of the (rewritten) url; when the network answers, the body of
    the answer becomes the discovery response, and when the request is
    rejected the call throws with the discovery response as it was. *)
Theorem resolveEndpointsAsync_trusted (w : World)
  (metadata : CloudDiscoveryMetadata) (url : string) :
  let a := this w in
  let host := HostNameAndPort (canonicalAuthorityUrlComponents N a) in
  let registry :=
    if bool_decide (TrustedHostList w = ∅)
    then setTrustedAuthoritiesFromNetwork N (canonicalAuthority a)
                                          (TrustedHostList w)
    else TrustedHostList w in
  registry !! host = Some metadata →
  (if bool_decide (host = preferred_network metadata)
   then url = canonicalAuthority a
   else UrlString_new N (replaceFirst host (preferred_network metadata)
                                      (canonicalAuthority a)) = Some url) →
  let a' := mkAuthority url (tenantDiscoveryResponse a)
                        (authorityProtocolMode a) in
  let endpoint := defaultOpenIdConfigurationEndpoint N a' in
  resolveEndpointsAsync N w
  = match sendGetRequestAsync N endpoint with
    | Some body =>
        (Ok (),
         mkWorld (mkAuthority url body (authorityProtocolMode a)) registry
                 (openIdRequests w ++ [endpoint]))
    | None =>
        (Throw NetworkError,
         mkWorld a' registry (openIdRequests w ++ [endpoint]))
    end.
Proof.
  destruct w as [[url0 response mode] reg reqs].
  cbv zeta. cbn [this TrustedHostList openIdRequests canonicalAuthority
                 tenantDiscoveryResponse authorityProtocolMode].
  intros Hhost Hurl.
  unfold resolveEndpointsAsync, validateAndSetPreferredNetwork,
    discoverEndpoints, set_canonicalAuthority.
  unfold mbind, AM_bind, getW, modifyW, mret, AM_ret, throw,
    IsInTrustedHostList, getCloudDiscoveryMetadata.
  cbn [this TrustedHostList openIdRequests canonicalAuthority
       tenantDiscoveryResponse authorityProtocolMode].
  rewrite (bool_decide_ext _ _
             (AuthorityProps.getTrustedHostList_empty
                (mkWorld (mkAuthority url0 response mode) reg reqs))).
  cbn [this TrustedHostList openIdRequests canonicalAuthority
       tenantDiscoveryResponse authorityProtocolMode].
  destruct (bool_decide (reg = ∅));
    cbn [this TrustedHostList openIdRequests canonicalAuthority
         tenantDiscoveryResponse authorityProtocolMode];
    rewrite bool_decide_eq_true_2 by (by rewrite Hhost);
    cbn [negb]; cbv beta;
    cbn [this TrustedHostList openIdRequests canonicalAuthority
         tenantDiscoveryResponse authorityProtocolMode];
    rewrite Hhost;
    destruct (bool_decide (_ = preferred_network metadata));
    cbn [negb]; cbv beta;
    cbn [this TrustedHostList openIdRequests canonicalAuthority
         tenantDiscoveryResponse authorityProtocolMode];
    rewrite ?Hurl; subst; cbv beta;
    cbn [this TrustedHostList openIdRequests canonicalAuthority
         tenantDiscoveryResponse authorityProtocolMode];
    by destruct (sendGetRequestAsync N _).
Qed.

End More.
End AuthorityMore.

(** ** The further properties on the sample environments *)

Module MoreExamples.
Import Constants StringUtils BrowserCacheManager CacheEntityStore.
Import TemporaryMore CacheExamples.

(** A nonce entry without a cached state survives [cleanRequestByState]. *)
Lemma cleanRequestByState_nothing_cached_witness :
  let E := Sample.env false in
  let st := setItem "msal.client-1.nonce.id_token.1" "N1" emptyCache in
  ∃ st', cleanRequestByState E Sample.state1 st = (Some (), st')
         ∧ browserStorage st' !! "msal.client-1.nonce.id_token.1" = Some "N1".
Proof.
  cbv zeta.
  destruct (cleanRequestByState_nothing_cached (Sample.env false)
              Sample.state1 "1"
              (setItem "msal.client-1.nonce.id_token.1" "N1" emptyCache))
    as (st' & Hrun & Hst); [discriminate|run|run|].
  exists st'. split; [exact Hrun|]. rewrite Hst. run.
Defined.

Lemma unparsable_state_throws_witness :
  let E := Sample.env false in
  parseRequestState E "not-a-state" = None
  ∧ updateCacheEntries E "not-a-state" "N1" "https://login.example.com/"
      emptyCache = (None, emptyCache).
Proof.
  cbv zeta. split; [run|].
  destruct (unparsable_state_throws (Sample.env false) "not-a-state"
              emptyCache) as (Hupdate & _); [discriminate|run|].
  apply Hupdate.
Defined.

Lemma getCachedAuthority_after_update_witness :
  let E := Sample.env false in
  ∃ st1,
    updateCacheEntries E Sample.state1 "N1" "https://login.example.com/common/"
      emptyCache = (Some (), st1)
    ∧ getCachedAuthority E Sample.state1 st1
      = (Some (Some "https://login.example.com/common/"), st1).
Proof.
  cbv zeta.
  destruct (getCachedAuthority_after_update (Sample.env false) Sample.state1
              "1" "N1" "https://login.example.com/common/" emptyCache)
    as (st1 & Hrun & Hget);
    [apply sample_parse_object_start|discriminate|run|].
  exists st1. split; [exact Hrun|exact Hget].
Defined.

Lemma generateCacheKey_injective_witness :
  let E := Sample.env false in
  generateCacheKey E "urlHash" = "msal.client-1.urlHash"
  ∧ ("urlHash" : string) = "urlHash".
Proof.
  cbv zeta. split; [run|].
  apply (generateCacheKey_injective (Sample.env false) "urlHash" "urlHash");
    [apply sample_parse_object_start|run|run|run|run|reflexivity].
Defined.

Lemma updateCacheEntries_writes_three_keys_witness :
  let E := Sample.env true in
  ∃ keys3 st',
    requestKeys E Sample.state1 = Some keys3
    ∧ updateCacheEntries E Sample.state1 "N1" "https://login.example.com/"
        emptyCache = (Some (), st')
    ∧ ∀ k, k ∉ keys3 → browserStorage st' !! k = None.
Proof.
  cbv zeta.
  destruct (updateCacheEntries_writes_three_keys (Sample.env true)
              Sample.state1 "1" "N1" "https://login.example.com/" emptyCache)
    as (keys3 & st' & Hkeys & Hrun & Hframe & _); [run|].
  exists keys3, st'. split; [exact Hkeys|]. split; [exact Hrun|].
  intros k Hk. destruct (Hframe k Hk) as [-> _]. apply lookup_empty.
Defined.

Lemma clear_removes_generated_keys_witness :
  let E := Sample.env false in
  let st := setTemporaryCache E "urlHash" "#code=abc" true emptyCache in
  getTemporaryCache E st "urlHash" true = Some "#code=abc"
  ∧ browserStorage (clear E st) !! generateCacheKey E "urlHash" = None.
Proof.
  cbv zeta. split; [run|].
  apply (clear_removes_generated_keys (Sample.env false)); [run|].
  right. run.
Defined.

End MoreExamples.

Module AuthorityMoreExamples.
Import Authority AuthorityMore.


Lemma endpoints_without_placeholder_witness :
  let N := AuthoritySample.env in
  let r := mkOpenIdConfigResponse
             "https://login.microsoftonline.com/contoso/oauth2/v2.0/authorize"
             "https://login.microsoftonline.com/contoso/oauth2/v2.0/token"
             "https://login.microsoftonline.com/contoso/oauth2/v2.0/logout"
             "https://login.microsoftonline.com/contoso/v2.0" in
  tokenEndpoint N (mkAuthority AuthoritySample.aadUrl (Some r) AAD)
  = Ok "https://login.microsoftonline.com/contoso/oauth2/v2.0/token".
Proof.
  cbv zeta.
  destruct (endpoints_without_placeholder AuthoritySample.env
              (mkAuthority AuthoritySample.aadUrl
                 (Some (mkOpenIdConfigResponse
                    "https://login.microsoftonline.com/contoso/oauth2/v2.0/authorize"
                    "https://login.microsoftonline.com/contoso/oauth2/v2.0/token"
                    "https://login.microsoftonline.com/contoso/oauth2/v2.0/logout"
                    "https://login.microsoftonline.com/contoso/v2.0")) AAD)
              _ eq_refl) as (_ & Htoken & _); [|exact Htoken].
  repeat (apply Forall_cons; split;
          [split; vm_compute; reflexivity|]).
  apply Forall_nil_2.
Defined.

Lemma resolveEndpointsAsync_trusted_witness :
  let N := AuthoritySample.env in
  ∃ w', resolveEndpointsAsync N
          (mkWorld (AuthoritySample.newAuthority AuthoritySample.aadUrl) ∅ [])
        = (Ok (), w')
        ∧ tenantDiscoveryResponse (this w')
          = Some AuthoritySample.templateConfig.
Proof.
  cbv zeta. eexists. 
  rewrite (resolveEndpointsAsync_trusted AuthoritySample.env
             (mkWorld (AuthoritySample.newAuthority AuthoritySample.aadUrl)
                      ∅ [])
             (mkCloudDiscoveryMetadata "login.microsoftonline.com"
                "login.windows.net"
                ["login.microsoftonline.com"; "login.windows.net"])
             AuthoritySample.aadUrl);
    [|vm_compute; reflexivity|vm_compute; reflexivity].
  split; [vm_compute; reflexivity|reflexivity].
Defined.

End AuthorityMoreExamples.
